(** * Fixed-point lookup-table generators: [scripts/lut_gen.py] and
      [scripts/acos_lut_gen.py]

    The two scripts sample a function, quantise the samples to fixed point,
    pack them into words and write one hexadecimal record per line.

    Numbers: a Python [float] is idealised as a real number ([R]); the
    library functions [math.exp] and [math.acos] are the real [exp] and
    [acos].  Python integers are unbounded and are modelled by [Z].  Text is
    [string]; a file is the string of everything written to it. *)

From Stdlib Require Import Reals Lra Lia Psatz ZArith NArith List String Ascii Bool.
From Stdlib Require Import Machin.
Import ListNotations.

Local Open Scope R_scope.

(** ** Python built-ins used by the scripts *)

Module Py.

(** [int(r)] on a float: truncation toward zero. *)
Definition int (r : R) : Z :=
  if Rle_dec 0 r then Int_part r else (- Int_part (- r))%Z.

(** [round(r)] on a float: the nearest integer, a tie going to the even one. *)
Definition round (r : R) : Z :=
  let f := Int_part r in
  if Rlt_dec (r - IZR f) (1 / 2) then f
  else if Rlt_dec (1 / 2) (r - IZR f) then (f + 1)%Z
  else if Z.even f then f else (f + 1)%Z.

(** [max(a, b)] and [min(a, b)] on floats. *)
Definition max (a b : R) : R := if Rlt_dec a b then b else a.
Definition min (a b : R) : R := if Rlt_dec b a then b else a.

(** [math.acos]: raises [ValueError] (here [None]) outside [-1, 1]. *)
Definition math_acos (x : R) : option R :=
  if Rle_dec (-1) x then if Rle_dec x 1 then Some (acos x) else None else None.

(** One hexadecimal digit, for the presentation types [x] and [X]. *)
Definition hex_digit (upper : bool) (d : N) : ascii :=
  match d with
  | 0%N => "0" | 1%N => "1" | 2%N => "2" | 3%N => "3" | 4%N => "4"
  | 5%N => "5" | 6%N => "6" | 7%N => "7" | 8%N => "8" | 9%N => "9"
  | 10%N => if upper then "A" else "a"
  | 11%N => if upper then "B" else "b"
  | 12%N => if upper then "C" else "c"
  | 13%N => if upper then "D" else "d"
  | 14%N => if upper then "E" else "e"
  | _ => if upper then "F" else "f"
  end%char.

(** The digits of [n] in base sixteen, most significant first, in front of
    [acc]; [fuel] bounds the number of digits. *)
Fixpoint hex_digits (upper : bool) (fuel : nat) (n : N) (acc : string) : string :=
  match fuel with
  | O => acc
  | S fuel' =>
      let acc' := String (hex_digit upper (n mod 16)) acc in
      if (n / 16 =? 0)%N then acc' else hex_digits upper fuel' (n / 16) acc'
  end.

Definition hex_of_N (upper : bool) (n : N) : string :=
  hex_digits upper (S (N.size_nat n)) n EmptyString.

Fixpoint zeros (k : nat) : string :=
  match k with
  | O => EmptyString
  | S k' => String "0"%char (zeros k')
  end.

(** Pad on the left with zeros up to [width] characters. *)
Definition zfill (width : nat) (s : string) : string :=
  (zeros (width - String.length s) ++ s)%string.

(** [format(z, "0<width>x")] and [format(z, "0<width>X")]: the sign, when
    there is one, comes first and counts in the width. *)
Definition format_hex (upper : bool) (width : nat) (z : Z) : string :=
  if (z <? 0)%Z
  then String "-"%char (zfill (width - 1) (hex_of_N upper (Z.abs_N z)))
  else zfill width (hex_of_N upper (Z.abs_N z)).

(** The end-of-line character written by the scripts. *)
Definition nl : ascii := ascii_of_nat 10.
Definition newline : string := String nl EmptyString.

(** A file system: the content of each path that exists. *)
Definition fs : Type := string -> option string.

(** [open(path, "w")] creates the file or truncates it; the content is
    built in a buffer and is the file's content once the file is closed. *)
Definition store (path : string) (content : string) (s : fs) : fs :=
  fun p => if String.eqb p path then Some content else s p.

(** [f.write(s)] appends to what was written so far. *)
Definition write (buf s : string) : string := (buf ++ s)%string.

(** The lines of a text, each ended by the end-of-line character; a last
    line without one is kept when it is not empty. *)
Fixpoint lines_from (cur : string) (s : string) : list string :=
  match s with
  | EmptyString =>
      match cur with EmptyString => [] | _ => [cur] end
  | String c s' =>
      if Ascii.eqb c nl then cur :: lines_from EmptyString s'
      else lines_from (cur ++ String c EmptyString)%string s'
  end.

Definition lines (s : string) : list string := lines_from EmptyString s.

End Py.

(** ** [scripts/lut_gen.py] *)

Module LutGen.

Definition sigmoid (x : R) : R :=
  if Rlt_dec x (-10) then 0
  else if Rlt_dec 10 x then 1
  else 1 / (1 + exp (- x)).

Definition sigmoid_derivative (x : R) : R :=
  let s := sigmoid x in
  s * (1 - s).

Definition num_entries : nat := 1024.
Definition min_val : R := -8.
Definition max_val : R := 8.
Definition step : R := (max_val - min_val) / INR num_entries.

Definition output_file : string := "sigmoid_lut.mem".

(** The loop body's local variables, in the order of the source. *)
Definition x_of (i : nat) : R := min_val + INR i * step.
Definition sig_fixed_of (x : R) : Z := Py.int (sigmoid x * 32767).
Definition sig_d_fixed_of (x : R) : Z := Py.int (sigmoid_derivative x * 32767).

(** [(sig_d_fixed << 16) | (sig_fixed & 0xFFFF)] *)
Definition pack (sig_d_fixed sig_fixed : Z) : Z :=
  Z.lor (Z.shiftl sig_d_fixed 16) (Z.land sig_fixed 65535).

Definition val_of (x : R) : Z := pack (sig_d_fixed_of x) (sig_fixed_of x).

Definition record (i : nat) : string := Py.format_hex true 8 (val_of (x_of i)).

Definition header : list string :=
  [ "// Boreal Neuro-Core v4.0 Sigmoid/Derivative LUT";
    "// Format: 32-bit hex (Bits [31:16] = Derivative, [15:0] = Sigmoid)";
    "// Value mapped using Q0.15 Fixed-Point notation." ]%string.

(** One iteration of the [for] loop: the buffer after the record of [i]. *)
Definition body (buf : string) (i : nat) : string :=
  Py.write buf (record i ++ Py.newline).

(** The content written between [open] and the end of the [with] block. *)
Definition content : string :=
  let buf := fold_left (fun b h => Py.write b (h ++ Py.newline)) header EmptyString in
  fold_left body (seq 0 num_entries) buf.

Definition main (s : Py.fs) : Py.fs := Py.store output_file content s.

End LutGen.

(** ** [scripts/acos_lut_gen.py] *)

Module AcosLutGen.

Definition entries : nat := 256.
Definition output_file : string := "acos_lut.mem".

(** [val = (i / 127.5) - 1.0] *)
Definition raw_val (i : nat) : R := INR i / 127.5 - 1.
(** [val = max(-1.0, min(1.0, val))] *)
Definition clamp (v : R) : R := Py.max (-1) (Py.min 1 v).
Definition val_of (i : nat) : R := clamp (raw_val i).

(** [int(round(theta_rad * (2**13)))]; [int] of an integer is the integer. *)
Definition quantize (theta_rad : R) : Z := Py.round (theta_rad * 2 ^ 13).

(** One iteration: [None] when [math.acos] raises. *)
Definition theta_q13 (i : nat) : option Z :=
  match Py.math_acos (val_of i) with
  | Some theta_rad => Some (quantize theta_rad)
  | None => None
  end.

Definition record_of (q : Z) : string := Py.format_hex false 4 q.

Definition body (buf : option string) (i : nat) : option string :=
  match buf with
  | None => None
  | Some b =>
      match theta_q13 i with
      | Some q => Some (Py.write b (record_of q ++ Py.newline))
      | None => None
      end
  end.

(** The record of entry [i] once [math.acos] has returned. *)
Definition record (i : nat) : string := record_of (quantize (acos (val_of i))).

(** The record of entry [i], when the iteration gets to write it. *)
Definition entry_record (i : nat) : option string :=
  option_map record_of (theta_q13 i).

(** The loop over [range(256)], from the empty file. *)
Definition content : option string :=
  fold_left body (seq 0 entries) (Some EmptyString).

(** How the script ends: the file written and exit status 0, or the
    [except] branch and exit status 1. *)
Inductive outcome : Type :=
| Written (s : Py.fs)
| Failed.

Definition script (s : Py.fs) : outcome :=
  match content with
  | Some c => Written (Py.store output_file c s)
  | None => Failed
  end.

End AcosLutGen.

(** ** The properties of the specification, in its own words

    These definitions follow the prose of the specification; the theorems
    below compare them with the two scripts. *)

Module Spec.

(** A round-to-nearest rule, whatever it does on a tie: [q] is an integer
    at distance at most one half from [r]. *)
Definition nearest (r : R) (q : Z) : Prop := Rabs (IZR q - r) <= 1 / 2.

(** The representable range of a format of [bits] bits. *)
Definition range_lo (bits : nat) (signed : bool) : Z :=
  if signed then (- 2 ^ (Z.of_nat bits - 1))%Z else 0%Z.
Definition range_hi (bits : nat) (signed : bool) : Z :=
  if signed then (2 ^ (Z.of_nat bits - 1) - 1)%Z else (2 ^ Z.of_nat bits - 1)%Z.

Definition clamp (bits : nat) (signed : bool) (q : Z) : Z :=
  Z.max (range_lo bits signed) (Z.min (range_hi bits signed) q).

(** [out] is the fixed-point encoding of [v]: [round(v * 2^frac_bits)]
    under a round-to-nearest rule, clamped into the range. *)
Definition quantized (bits frac_bits : nat) (signed : bool) (v : R) (out : Z) : Prop :=
  exists q : Z, nearest (v * 2 ^ frac_bits) q /\ out = clamp bits signed q.

(** The decoded approximation [q / 2^frac_bits]. *)
Definition decode (frac_bits : nat) (q : Z) : R := IZR q / 2 ^ frac_bits.

(** The two-channel word: each channel masked to 16 bits and shifted to its
    position, channel 1 at bits 31..16 and channel 0 at bits 15..0. *)
Definition pack2 (c0 c1 : Z) : Z :=
  Z.lor (Z.shiftl (Z.land c1 65535) 16) (Z.shiftl (Z.land c0 65535) 0).

(** The normalised sample of index [i] in a table of [n] entries, before the
    clamp: [i] divided by half of [n - 1], minus one. *)
Definition normalized (n i : nat) : R := INR i / ((INR n - 1) / 2) - 1.

(** A line that begins with the two-character comment marker. *)
Definition is_comment (l : string) : bool := String.prefix "//" l.

(** The data records of a file: its lines that are not comments. *)
Definition data_records (content : string) : list string :=
  filter (fun l => negb (is_comment l)) (Py.lines content).

End Spec.

(** ** Text: characters of a record, lines of a file *)

Module Text.

Fixpoint all_chars (p : ascii -> bool) (s : string) : bool :=
  match s with
  | EmptyString => true
  | String c s' => p c && all_chars p s'
  end.

(** A character that does not end a line. *)
Definition line_char (c : ascii) : bool := negb (Ascii.eqb c Py.nl).

(** A character that neither ends a line nor starts the comment marker. *)
Definition record_char (c : ascii) : bool :=
  line_char c && negb (Ascii.eqb c "/"%char).

(** A hexadecimal digit of the given case. *)
Definition hex_char (upper : bool) (c : ascii) : bool :=
  existsb (Ascii.eqb c)
    (list_ascii_of_string
       (if upper then "0123456789ABCDEF" else "0123456789abcdef")).

(** The [k] low hexadecimal digits of [n], most significant first. *)
Fixpoint fixed_hex (upper : bool) (k : nat) (n : N) : string :=
  match k with
  | O => EmptyString
  | S k' =>
      (fixed_hex upper k' (n / 16)
       ++ String (Py.hex_digit upper (n mod 16)) EmptyString)%string
  end.

(** The text made of the given lines, each followed by the end of line. *)
Fixpoint unlines (ls : list string) : string :=
  match ls with
  | [] => EmptyString
  | l :: ls' => (l ++ Py.newline ++ unlines ls')%string
  end.

End Text.

(** ** Rounding and truncation *)

Section Rounding.

Lemma Rabs_le_both (a b : R) : Rabs a <= b -> - b <= a <= b.
Proof. unfold Rabs. destruct (Rcase_abs a); lra. Qed.

Lemma Int_part_bounds (r : R) : IZR (Int_part r) <= r < IZR (Int_part r) + 1.
Proof. destruct (base_Int_part r) as [H1 H2]. lra. Qed.

Lemma Int_part_unique (r : R) (z : Z) :
  IZR z <= r < IZR z + 1 -> Int_part r = z.
Proof. intros [H1 H2]. symmetry. apply Int_part_spec. lra. Qed.

(** On a non-negative float [int] is the floor. *)
Lemma int_nonneg_bounds (r : R) :
  0 <= r -> IZR (Py.int r) <= r < IZR (Py.int r) + 1.
Proof.
  intros Hr. unfold Py.int. destruct (Rle_dec 0 r) as [_ | Hn]; [| contradiction].
  apply Int_part_bounds.
Qed.

Lemma int_nonneg_unique (r : R) (z : Z) :
  IZR z <= r < IZR z + 1 -> (0 <= z)%Z -> Py.int r = z.
Proof.
  intros Hz Hpos. unfold Py.int.
  assert (0 <= r) by (apply IZR_le in Hpos; lra).
  destruct (Rle_dec 0 r) as [_ | Hn]; [| contradiction].
  now apply Int_part_unique.
Qed.

Lemma int_nonneg_range (r : R) (hi : Z) :
  0 <= r -> r < IZR hi + 1 -> (0 <= Py.int r <= hi)%Z.
Proof.
  intros H0 Hhi. destruct (int_nonneg_bounds r H0) as [Hl Hu]. split.
  - apply Z.lt_succ_r, lt_IZR. rewrite succ_IZR. lra.
  - apply Z.lt_succ_r, lt_IZR. rewrite succ_IZR. lra.
Qed.

Lemma int_zero : Py.int 0 = 0%Z.
Proof. apply int_nonneg_unique; simpl; [lra | lia]. Qed.

(** [round] returns an integer at distance at most one half. *)
Lemma round_nearest (r : R) : Rabs (IZR (Py.round r) - r) <= 1 / 2.
Proof.
  unfold Py.round. pose proof (Int_part_bounds r) as [Hl Hu].
  destruct (Rlt_dec _ _) as [H1 | H1].
  - apply Rabs_le. lra.
  - destruct (Rlt_dec _ _) as [H2 | H2].
    + rewrite plus_IZR. apply Rabs_le. simpl. lra.
    + destruct (Z.even _); [| rewrite plus_IZR]; apply Rabs_le; simpl; lra.
Qed.

(** Away from a tie, [round] is the one integer within one half. *)
Lemma round_unique (r : R) (z : Z) :
  IZR z - 1 / 2 < r < IZR z + 1 / 2 -> Py.round r = z.
Proof.
  intros [Hl Hu]. pose proof (round_nearest r) as Hn. apply Rabs_le_both in Hn.
  apply Z.le_antisymm.
  - apply Z.lt_succ_r, lt_IZR. rewrite succ_IZR. lra.
  - apply Z.lt_pred_le, lt_IZR. unfold Z.pred. rewrite plus_IZR. simpl. lra.
Qed.

Lemma round_range (r : R) (lo hi : Z) :
  IZR lo - 1 / 2 < r -> r < IZR hi + 1 / 2 -> (lo <= Py.round r <= hi)%Z.
Proof.
  intros Hl Hu. pose proof (round_nearest r) as Hn. apply Rabs_le_both in Hn. split.
  - apply Z.lt_pred_le, lt_IZR. unfold Z.pred. rewrite plus_IZR. simpl. lra.
  - apply Z.lt_succ_r, lt_IZR. rewrite succ_IZR. lra.
Qed.

End Rounding.

(** ** Bounds on [exp] and [PI] *)

Section Constants.

Lemma exp_double_lower (y y2 c c' : R) :
  y2 = y + y -> 0 <= c -> c <= exp y -> c' <= c * c -> c' <= exp y2.
Proof.
  intros -> Hc Hy Hc'. rewrite exp_plus.
  apply Rle_trans with (c * c); [exact Hc' |].
  apply Rmult_le_compat; assumption.
Qed.

Lemma exp_double_upper (y y2 c c' : R) :
  y2 = y + y -> exp y <= c -> c * c <= c' -> exp y2 <= c'.
Proof.
  intros -> Hy Hc'. rewrite exp_plus. pose proof (exp_pos y) as Hp.
  apply Rle_trans with (c * c); [| exact Hc'].
  apply Rmult_le_compat; lra.
Qed.

(** [exp 1] between two rationals, by fifteen squarings from
    [1 + y <= exp y <= / (1 - y)] at [y = / 32768], rounded outward. *)
Lemma exp_1_bounds : 27182403476556 / 10000000000000 <= exp 1 <= 27183233135226 / 10000000000000.
Proof.
  assert (L0 : 1 + / 32768 <= exp (/ 32768)) by apply exp_ineq1_le.
  assert (U0 : exp (/ 32768) <= 32768 / 32767).
  { pose proof (exp_ineq1_le (- / 32768)) as H. rewrite exp_Ropp in H.
    pose proof (exp_pos (/ 32768)) as Hp.
    apply Rmult_le_reg_r with (r := 1 + - / 32768); [lra |].
    apply Rle_trans with (exp (/ 32768) * / exp (/ 32768)).
    - apply Rmult_le_compat_l; lra.
    - rewrite Rinv_r by lra. lra. }
  assert (L1 : 10000610360875 / 10000000000000 <= exp (/ 16384)).
  { apply (exp_double_lower (/ 32768) (/ 16384) (1 + / 32768)); [lra | lra | exact L0 | lra]. }
  assert (U1 : exp (/ 16384) <= 10000610379504 / 10000000000000).
  { apply (exp_double_upper (/ 32768) (/ 16384) (32768 / 32767)); [lra | exact U0 | lra]. }
  clear L0 U0.
  assert (L2 : 10001220759004 / 10000000000000 <= exp (/ 8192)).
  { apply (exp_double_lower (/ 16384) (/ 8192) (10000610360875 / 10000000000000)); [lra | lra | exact L1 | lra]. }
  assert (U2 : exp (/ 8192) <= 10001220796265 / 10000000000000).
  { apply (exp_double_upper (/ 16384) (/ 8192) (10000610379504 / 10000000000000)); [lra | exact U1 | lra]. }
  clear L1 U1.
  assert (L3 : 10002441667033 / 10000000000000 <= exp (/ 4096)).
  { apply (exp_double_lower (/ 8192) (/ 4096) (10001220759004 / 10000000000000)); [lra | lra | exact L2 | lra]. }
  assert (U3 : exp (/ 4096) <= 10002441741565 / 10000000000000).
  { apply (exp_double_upper (/ 8192) (/ 4096) (10001220796265 / 10000000000000)); [lra | exact U2 | lra]. }
  clear L2 U2.
  assert (L4 : 10004883930239 / 10000000000000 <= exp (/ 2048)).
  { apply (exp_double_lower (/ 4096) (/ 2048) (10002441667033 / 10000000000000)); [lra | lra | exact L3 | lra]. }
  assert (U4 : exp (/ 2048) <= 10004884079341 / 10000000000000).
  { apply (exp_double_upper (/ 4096) (/ 2048) (10002441741565 / 10000000000000)); [lra | exact U3 | lra]. }
  clear L3 U3.
  assert (L5 : 10009770245755 / 10000000000000 <= exp (/ 1024)).
  { apply (exp_double_lower (/ 2048) (/ 1024) (10004883930239 / 10000000000000)); [lra | lra | exact L4 | lra]. }
  assert (U5 : exp (/ 1024) <= 10009770544106 / 10000000000000).
  { apply (exp_double_upper (/ 2048) (/ 1024) (10004884079341 / 10000000000000)); [lra | exact U4 | lra]. }
  clear L4 U4.
  assert (L6 : 10019550037280 / 10000000000000 <= exp (/ 512)).
  { apply (exp_double_lower (/ 1024) (/ 512) (10009770245755 / 10000000000000)); [lra | lra | exact L5 | lra]. }
  assert (U6 : exp (/ 512) <= 10019550634566 / 10000000000000).
  { apply (exp_double_upper (/ 1024) (/ 512) (10009770544106 / 10000000000000)); [lra | exact U5 | lra]. }
  clear L5 U5.
  assert (L7 : 10039138294955 / 10000000000000 <= exp (/ 256)).
  { apply (exp_double_lower (/ 512) (/ 256) (10019550037280 / 10000000000000)); [lra | lra | exact L6 | lra]. }
  assert (U7 : exp (/ 256) <= 10039139491864 / 10000000000000).
  { apply (exp_double_upper (/ 512) (/ 256) (10019550634566 / 10000000000000)); [lra | exact U6 | lra]. }
  clear L6 U6.
  assert (L8 : 10078429770523 / 10000000000000 <= exp (/ 128)).
  { apply (exp_double_lower (/ 256) (/ 128) (10039138294955 / 10000000000000)); [lra | lra | exact L7 | lra]. }
  assert (U8 : exp (/ 128) <= 10078432173711 / 10000000000000).
  { apply (exp_double_upper (/ 256) (/ 128) (10039139491864 / 10000000000000)); [lra | exact U7 | lra]. }
  clear L7 U7.
  assert (L9 : 10157474663936 / 10000000000000 <= exp (/ 64)).
  { apply (exp_double_lower (/ 128) (/ 64) (10078429770523 / 10000000000000)); [lra | lra | exact L8 | lra]. }
  assert (U9 : exp (/ 64) <= 10157479508010 / 10000000000000).
  { apply (exp_double_upper (/ 128) (/ 64) (10078432173711 / 10000000000000)); [lra | exact U8 | lra]. }
  clear L8 U8.
  assert (L10 : 10317429154850 / 10000000000000 <= exp (/ 32)).
  { apply (exp_double_lower (/ 64) (/ 32) (10157474663936 / 10000000000000)); [lra | lra | exact L9 | lra]. }
  assert (U10 : exp (/ 32) <= 10317438995565 / 10000000000000).
  { apply (exp_double_upper (/ 64) (/ 32) (10157479508010 / 10000000000000)); [lra | exact U9 | lra]. }
  clear L9 U9.
  assert (L11 : 10644934436534 / 10000000000000 <= exp (/ 16)).
  { apply (exp_double_lower (/ 32) (/ 16) (10317429154850 / 10000000000000)); [lra | lra | exact L10 | lra]. }
  assert (U11 : exp (/ 16) <= 10644954742721 / 10000000000000).
  { apply (exp_double_upper (/ 32) (/ 16) (10317438995565 / 10000000000000)); [lra | exact U10 | lra]. }
  clear L10 U10.
  assert (L12 : 11331462915810 / 10000000000000 <= exp (/ 8)).
  { apply (exp_double_lower (/ 16) (/ 8) (10644934436534 / 10000000000000)); [lra | lra | exact L11 | lra]. }
  assert (U12 : exp (/ 8) <= 11331506147458 / 10000000000000).
  { apply (exp_double_upper (/ 16) (/ 8) (10644954742721 / 10000000000000)); [lra | exact U11 | lra]. }
  clear L11 U11.
  assert (L13 : 12840205181237 / 10000000000000 <= exp (/ 4)).
  { apply (exp_double_lower (/ 8) (/ 4) (11331462915810 / 10000000000000)); [lra | lra | exact L12 | lra]. }
  assert (U13 : exp (/ 4) <= 12840303156988 / 10000000000000).
  { apply (exp_double_upper (/ 8) (/ 4) (11331506147458 / 10000000000000)); [lra | exact U12 | lra]. }
  clear L12 U12.
  assert (L14 : 16487086909626 / 10000000000000 <= exp (/ 2)).
  { apply (exp_double_lower (/ 4) (/ 2) (12840205181237 / 10000000000000)); [lra | lra | exact L13 | lra]. }
  assert (U14 : exp (/ 2) <= 16487338516336 / 10000000000000).
  { apply (exp_double_upper (/ 4) (/ 2) (12840303156988 / 10000000000000)); [lra | exact U13 | lra]. }
  clear L13 U13.
  assert (L15 : 27182403476556 / 10000000000000 <= exp (1)).
  { apply (exp_double_lower (/ 2) (1) (16487086909626 / 10000000000000)); [lra | lra | exact L14 | lra]. }
  assert (U15 : exp (1) <= 27183233135226 / 10000000000000).
  { apply (exp_double_upper (/ 2) (1) (16487338516336 / 10000000000000)); [lra | exact U14 | lra]. }
  clear L14 U14.
  split; assumption.
Qed.

Lemma exp_10_bounds : 22020 <= exp 10 <= 22035.
Proof.
  destruct exp_1_bounds as [L1 U1].
  assert (L2 : 73888 / 10000 <= exp 2).
  { apply (exp_double_lower 1 2 (27182403476556 / 10000000000000)); lra. }
  assert (U2 : exp 2 <= 73894 / 10000).
  { apply (exp_double_upper 1 2 (27183233135226 / 10000000000000)); lra. }
  assert (L4 : 54594 / 1000 <= exp 4).
  { apply (exp_double_lower 2 4 (73888 / 10000)); lra. }
  assert (U4 : exp 4 <= 54604 / 1000).
  { apply (exp_double_upper 2 4 (73894 / 10000)); lra. }
  assert (L8 : 29805 / 10 <= exp 8).
  { apply (exp_double_lower 4 8 (54594 / 1000)); lra. }
  assert (U8 : exp 8 <= 29816 / 10).
  { apply (exp_double_upper 4 8 (54604 / 1000)); lra. }
  replace 10 with (8 + 2) by lra. rewrite exp_plus.
  pose proof (exp_pos 8). pose proof (exp_pos 2). split.
  - apply Rle_trans with (29805 / 10 * (73888 / 10000)); [lra |].
    apply Rmult_le_compat; lra.
  - apply Rle_trans with (29816 / 10 * (73894 / 10000)); [| lra].
    apply Rmult_le_compat; lra.
Qed.

Lemma PI_bounds : 314159 / 100000 < PI < 314160 / 100000.
Proof.
  pose proof (PI_2_3_7_ineq 3) as [Hl Hu].
  unfold sum_f_R0, tg_alt, PI_2_3_7_tg, Ratan_seq in Hl, Hu.
  simpl in Hl, Hu.
  split; lra.
Qed.

Lemma acos_m1 : acos (-1) = PI.
Proof. replace (-1) with (- (1)) by lra. rewrite acos_opp, acos_1. lra. Qed.

End Constants.

(** ** The sigmoid and its quantised channels *)

Section Sigmoid.

Import LutGen.

Lemma sigmoid_below (x : R) : x < -10 -> sigmoid x = 0.
Proof. intros H. unfold sigmoid. destruct (Rlt_dec x (-10)); [reflexivity | contradiction]. Qed.

Lemma sigmoid_above (x : R) : 10 < x -> sigmoid x = 1.
Proof.
  intros H. unfold sigmoid.
  destruct (Rlt_dec x (-10)); [lra |].
  destruct (Rlt_dec 10 x); [reflexivity | contradiction].
Qed.

Lemma sigmoid_middle (x : R) :
  -10 <= x <= 10 -> sigmoid x = 1 / (1 + exp (- x)).
Proof.
  intros H. unfold sigmoid.
  destruct (Rlt_dec x (-10)); [lra |].
  destruct (Rlt_dec 10 x); [lra | reflexivity].
Qed.

Lemma sigmoid_range (x : R) : 0 <= sigmoid x <= 1.
Proof.
  unfold sigmoid.
  destruct (Rlt_dec x (-10)); [lra |].
  destruct (Rlt_dec 10 x); [lra |].
  pose proof (exp_pos (- x)) as He.
  assert (0 < / (1 + exp (- x))) by (apply Rinv_0_lt_compat; lra).
  assert (/ (1 + exp (- x)) <= 1).
  { rewrite <- Rinv_1 at 2. apply Rinv_le_contravar; lra. }
  unfold Rdiv. lra.
Qed.

Lemma sigmoid_derivative_range (x : R) : 0 <= sigmoid_derivative x <= 1 / 4.
Proof.
  unfold sigmoid_derivative. pose proof (sigmoid_range x) as [H0 H1].
  cbv zeta. generalize dependent (sigmoid x). intros s H0 H1. split.
  - apply Rmult_le_pos; lra.
  - pose proof (Rle_0_sqr (s - 1 / 2)) as H. unfold Rsqr in H. lra.
Qed.

Lemma sig_fixed_range (x : R) : (0 <= sig_fixed_of x <= 32767)%Z.
Proof.
  unfold sig_fixed_of. pose proof (sigmoid_range x) as [H0 H1].
  apply int_nonneg_range; lra.
Qed.

Lemma sig_d_fixed_range (x : R) : (0 <= sig_d_fixed_of x <= 8191)%Z.
Proof.
  unfold sig_d_fixed_of. pose proof (sigmoid_derivative_range x) as [H0 H1].
  apply int_nonneg_range; lra.
Qed.

(** The middle of the table: index 512 is [x = 0], where the sigmoid is one half. *)
Lemma x_of_512 : x_of 512 = 0.
Proof.
  unfold x_of, step, min_val, max_val, num_entries.
  rewrite !INR_IZR_INZ. simpl. lra.
Qed.

Lemma sigmoid_0 : sigmoid 0 = 1 / 2.
Proof.
  rewrite sigmoid_middle by lra. rewrite Ropp_0, exp_0. lra.
Qed.

Lemma sig_fixed_0 : sig_fixed_of 0 = 16383%Z.
Proof.
  unfold sig_fixed_of. rewrite sigmoid_0.
  apply int_nonneg_unique; [simpl; lra | lia].
Qed.

(** Index 576 is [x = 1]. *)
Lemma x_of_576 : x_of 576 = 1.
Proof.
  unfold x_of, step, min_val, max_val, num_entries.
  rewrite !INR_IZR_INZ. simpl. lra.
Qed.

Lemma sigmoid_1_bounds : 23955 / 32768 < sigmoid 1 < 23955 / 32767.
Proof.
  rewrite sigmoid_middle by lra. destruct exp_1_bounds as [L U].
  rewrite exp_Ropp. pose proof (exp_pos 1) as Hp.
  replace (1 / (1 + / exp 1)) with (exp 1 / (exp 1 + 1)) by (field; lra).
  split.
  - apply Rmult_lt_reg_r with (exp 1 + 1); [lra |].
    unfold Rdiv at 2. rewrite Rmult_assoc, Rinv_l by lra. lra.
  - apply Rmult_lt_reg_r with (exp 1 + 1); [lra |].
    unfold Rdiv at 1. rewrite Rmult_assoc, Rinv_l by lra. lra.
Qed.

Lemma sig_fixed_1 : sig_fixed_of 1 = 23954%Z.
Proof.
  unfold sig_fixed_of. destruct sigmoid_1_bounds as [L U].
  apply int_nonneg_unique; [simpl; lra | lia].
Qed.

(** At the two guards themselves the exponential is still evaluated. *)
Lemma sigmoid_m10_bounds : 1 / 32767 <= sigmoid (-10) < 2 / 32767.
Proof.
  rewrite sigmoid_middle by lra. destruct exp_10_bounds as [L U].
  replace (- -10) with 10 by lra.
  assert (Hp : 0 < 1 + exp 10) by lra.
  split.
  - apply Rmult_le_reg_r with (1 + exp 10); [lra |].
    unfold Rdiv at 2. rewrite Rmult_assoc, Rinv_l by lra. lra.
  - apply Rmult_lt_reg_r with (1 + exp 10); [lra |].
    unfold Rdiv at 1. rewrite Rmult_assoc, Rinv_l by lra. lra.
Qed.

Lemma sigmoid_10_bounds : 32765 / 32767 <= sigmoid 10 < 32766 / 32767.
Proof.
  rewrite sigmoid_middle by lra. destruct exp_10_bounds as [L U].
  rewrite exp_Ropp. pose proof (exp_pos 10) as Hp.
  replace (1 / (1 + / exp 10)) with (exp 10 / (exp 10 + 1)) by (field; lra).
  split.
  - apply Rmult_le_reg_r with (exp 10 + 1); [lra |].
    unfold Rdiv at 2. rewrite Rmult_assoc, Rinv_l by lra. lra.
  - apply Rmult_lt_reg_r with (exp 10 + 1); [lra |].
    unfold Rdiv at 1. rewrite Rmult_assoc, Rinv_l by lra. lra.
Qed.


Lemma sig_fixed_10 : sig_fixed_of 10 = 32765%Z.
Proof.
  unfold sig_fixed_of. destruct sigmoid_10_bounds as [L U].
  apply int_nonneg_unique; [simpl; lra | lia].
Qed.

End Sigmoid.

(** ** The arccosine samples and their quantised values *)

Section Arccosine.

Import AcosLutGen.

Lemma clamp_range (v : R) : -1 <= clamp v <= 1.
Proof.
  unfold clamp, Py.max, Py.min.
  destruct (Rlt_dec v 1); destruct (Rlt_dec (-1) _); lra.
Qed.

Lemma clamp_inside (v : R) : -1 <= v <= 1 -> clamp v = v.
Proof.
  intros H. unfold clamp, Py.max, Py.min.
  destruct (Rlt_dec v 1); destruct (Rlt_dec (-1) _); lra.
Qed.

Lemma raw_val_inside (i : nat) : (i < 256)%nat -> -1 <= raw_val i <= 1.
Proof.
  intros Hi. unfold raw_val.
  assert (0 <= INR i) by apply pos_INR.
  assert (INR i <= 255).
  { replace 255 with (INR 255) by (rewrite INR_IZR_INZ; reflexivity).
    apply le_INR. lia. }
  lra.
Qed.

Lemma math_acos_inside (v : R) : -1 <= v <= 1 -> Py.math_acos v = Some (acos v).
Proof.
  intros [Hl Hu]. unfold Py.math_acos.
  destruct (Rle_dec (-1) v); [| contradiction].
  destruct (Rle_dec v 1); [reflexivity | contradiction].
Qed.

(** [math.acos] never raises in the loop. *)
Lemma theta_q13_value (i : nat) :
  theta_q13 i = Some (quantize (acos (val_of i))).
Proof.
  unfold theta_q13. rewrite math_acos_inside by apply clamp_range. reflexivity.
Qed.

Lemma val_of_0 : val_of 0 = -1.
Proof.
  unfold val_of. rewrite clamp_inside; unfold raw_val; simpl; lra.
Qed.

Lemma val_of_255 : val_of 255 = 1.
Proof.
  unfold val_of.
  assert (H : raw_val 255 = 1).
  { unfold raw_val. rewrite INR_IZR_INZ. simpl. lra. }
  rewrite H. apply clamp_inside. lra.
Qed.

Lemma quantize_range (x : R) : (0 <= quantize (acos x) <= 25736)%Z.
Proof.
  unfold quantize. pose proof (acos_bound x) as [H0 H1].
  pose proof PI_bounds as [_ HP].
  apply round_range; simpl; lra.
Qed.

Lemma quantize_PI : quantize PI = 25736%Z.
Proof.
  unfold quantize. pose proof PI_bounds as [HL HU].
  apply round_unique. simpl. lra.
Qed.

Lemma quantize_0 : quantize 0 = 0%Z.
Proof. unfold quantize. apply round_unique. simpl. lra. Qed.

End Arccosine.

(** ** Hexadecimal records and lines *)

Section Records.

Import Text.

Local Open Scope string_scope.

Lemma length_app (s t : string) :
  String.length (s ++ t) = (String.length s + String.length t)%nat.
Proof. induction s as [| c s IH]; simpl; [reflexivity | now rewrite IH]. Qed.

Lemma app_empty_r (s : string) : s ++ EmptyString = s.
Proof. induction s as [| c s IH]; simpl; [reflexivity | now rewrite IH]. Qed.

Lemma app_assoc (s t u : string) : (s ++ t) ++ u = s ++ (t ++ u).
Proof. induction s as [| c s IH]; simpl; [reflexivity | now rewrite IH]. Qed.

Lemma all_chars_app (p : ascii -> bool) (s t : string) :
  all_chars p (s ++ t) = all_chars p s && all_chars p t.
Proof.
  induction s as [| c s IH]; simpl; [reflexivity |].
  rewrite IH. now rewrite andb_assoc.
Qed.

Lemma hex_digit_record_char (upper : bool) (d : N) :
  record_char (Py.hex_digit upper d) = true.
Proof.
  destruct upper; (destruct d as [| p]; [reflexivity |]);
    do 4 (try destruct p as [p | p |]); reflexivity.
Qed.

Lemma hex_digit_hex_char (upper : bool) (d : N) :
  hex_char upper (Py.hex_digit upper d) = true.
Proof.
  destruct upper; (destruct d as [| p]; [reflexivity |]);
    do 4 (try destruct p as [p | p |]); reflexivity.
Qed.

Section Digits.

Variable p : ascii -> bool.
Variable upper : bool.
Hypothesis p_digit : forall d : N, p (Py.hex_digit upper d) = true.

Lemma hex_digits_chars (fuel : nat) :
  forall (n : N) (acc : string),
    all_chars p acc = true ->
    all_chars p (Py.hex_digits upper fuel n acc) = true.
Proof.
  induction fuel as [| fuel IH]; intros n acc Hacc; simpl; [exact Hacc |].
  assert (Hacc' : all_chars p (String (Py.hex_digit upper (n mod 16)) acc) = true).
  { simpl. now rewrite p_digit. }
  destruct (n / 16 =? 0)%N; [exact Hacc' | now apply IH].
Qed.

Lemma zeros_chars (k : nat) : all_chars p (Py.zeros k) = true.
Proof.
  induction k as [| k IH]; simpl; [reflexivity |].
  rewrite IH. change "0"%char with (Py.hex_digit upper 0). now rewrite p_digit.
Qed.

Lemma zfill_hex_chars (w : nat) (n : N) :
  all_chars p (Py.zfill w (Py.hex_of_N upper n)) = true.
Proof.
  unfold Py.zfill. rewrite all_chars_app, zeros_chars. simpl.
  unfold Py.hex_of_N. now apply hex_digits_chars.
Qed.

End Digits.

Lemma zeros_length (k : nat) : String.length (Py.zeros k) = k.
Proof. induction k as [| k IH]; simpl; [reflexivity | now rewrite IH]. Qed.

(** A record has no end of line and no slash in it. *)
Lemma format_hex_chars (upper : bool) (width : nat) (z : Z) :
  all_chars record_char (Py.format_hex upper width z) = true.
Proof.
  unfold Py.format_hex. destruct (z <? 0)%Z; [simpl |];
    apply zfill_hex_chars, hex_digit_record_char.
Qed.

(** The record of a non-negative number is made of hexadecimal digits. *)
Lemma format_hex_digits (upper : bool) (width : nat) (z : Z) :
  (0 <= z)%Z -> all_chars (hex_char upper) (Py.format_hex upper width z) = true.
Proof.
  intros Hz. unfold Py.format_hex.
  destruct (z <? 0)%Z eqn:Hneg; [apply Z.ltb_lt in Hneg; lia |].
  apply zfill_hex_chars, hex_digit_hex_char.
Qed.

Example format_hex_word : Py.format_hex true 8 0x56781234 = "56781234".
Proof. reflexivity. Qed.

Example format_hex_padded : Py.format_hex false 4 255 = "00ff".
Proof. reflexivity. Qed.

Example format_hex_wide : Py.format_hex false 4 0x12345 = "12345".
Proof. reflexivity. Qed.

Example format_hex_negative : Py.format_hex true 8 (-1) = "-0000001".
Proof. reflexivity. Qed.

(** A number below [16^k] has at most [k] digits. *)
Lemma hex_digits_length (upper : bool) (fuel : nat) :
  forall (k : nat) (n : N) (acc : string),
    (n < 16 ^ N.of_nat (S k))%N ->
    (String.length (Py.hex_digits upper fuel n acc)
     <= S k + String.length acc)%nat.
Proof.
  induction fuel as [| fuel IH]; intros k n acc Hn; simpl; [lia |].
  destruct (n / 16 =? 0)%N eqn:Hq; [simpl; lia |].
  apply N.eqb_neq in Hq.
  destruct k as [| k].
  - exfalso. apply Hq. apply N.div_small. exact Hn.
  - specialize (IH k (n / 16)%N (String (Py.hex_digit upper (n mod 16)) acc)).
    simpl String.length in IH.
    assert (Hd : (n / 16 < 16 ^ N.of_nat (S k))%N).
    { apply N.Div0.div_lt_upper_bound.
      replace (N.of_nat (S (S k))) with (N.succ (N.of_nat (S k))) in Hn by lia.
      rewrite N.pow_succ_r' in Hn. exact Hn. }
    specialize (IH Hd). lia.
Qed.

Lemma format_hex_width (upper : bool) (k : nat) (z : Z) :
  (0 <= z < 16 ^ Z.of_nat (S k))%Z ->
  String.length (Py.format_hex upper (S k) z) = S k.
Proof.
  intros [H0 Hz]. unfold Py.format_hex.
  destruct (z <? 0)%Z eqn:Hneg; [apply Z.ltb_lt in Hneg; lia |].
  unfold Py.zfill. rewrite length_app, zeros_length.
  assert (Hn : (Z.abs_N z < 16 ^ N.of_nat (S k))%N).
  { apply N2Z.inj_lt. rewrite N2Z.inj_abs_N, Z.abs_eq by lia.
    rewrite N2Z.inj_pow, nat_N_Z. exact Hz. }
  pose proof (hex_digits_length upper (S (N.size_nat (Z.abs_N z))) k
                (Z.abs_N z) EmptyString Hn) as Hlen.
  fold (Py.hex_of_N upper (Z.abs_N z)) in Hlen. simpl String.length in Hlen.
  lia.
Qed.

Lemma record_char_line_char (s : string) :
  all_chars record_char s = true -> all_chars line_char s = true.
Proof.
  induction s as [| c s IH]; simpl; [reflexivity |].
  unfold record_char. intros H.
  apply andb_true_iff in H as [Hc Hs]. apply andb_true_iff in Hc as [Hc _].
  rewrite Hc. simpl. now apply IH.
Qed.

Lemma record_not_comment (s : string) :
  all_chars record_char s = true -> Spec.is_comment s = false.
Proof.
  destruct s as [| c s]; [reflexivity |]. simpl. unfold record_char.
  intros H. apply andb_true_iff in H as [Hc _].
  apply andb_true_iff in Hc as [_ Hc]. apply negb_true_iff in Hc.
  unfold Spec.is_comment.
  destruct c as [[] [] [] [] [] [] [] []];
    first [discriminate Hc | reflexivity].
Qed.

(** Reading back one line that was written. *)
Lemma lines_from_line (l : string) :
  all_chars line_char l = true ->
  forall cur rest : string,
    Py.lines_from cur (l ++ String Py.nl rest)
    = (cur ++ l) :: Py.lines_from EmptyString rest.
Proof.
  induction l as [| c l IH]; intros Hl cur rest; cbn [append Py.lines_from].
  - rewrite Ascii.eqb_refl, app_empty_r. reflexivity.
  - cbn [all_chars] in Hl. apply andb_true_iff in Hl as [Hc Hl].
    unfold line_char in Hc. apply negb_true_iff in Hc. rewrite Hc.
    rewrite (IH Hl). rewrite app_assoc. reflexivity.
Qed.

Lemma lines_unlines (ls : list string) :
  Forall (fun l => all_chars line_char l = true) ls ->
  Py.lines (unlines ls) = ls.
Proof.
  unfold Py.lines. induction 1 as [| l ls Hl _ IH]; simpl; [reflexivity |].
  unfold Py.newline. simpl. rewrite (lines_from_line l Hl). simpl. now rewrite IH.
Qed.

(** A loop of [write] calls, one line each, appends the lines in order. *)
Lemma fold_write_lines {A : Type} (f : A -> string) (l : list A) :
  forall buf : string,
    fold_left (fun b a => Py.write b (f a ++ Py.newline)) l buf
    = buf ++ unlines (map f l).
Proof.
  induction l as [| a l IH]; intros buf; simpl.
  - now rewrite app_empty_r.
  - rewrite IH. unfold Py.write. now rewrite !app_assoc.
Qed.

Lemma unlines_app (l1 l2 : list string) :
  unlines (l1 ++ l2) = unlines l1 ++ unlines l2.
Proof.
  induction l1 as [| a l1 IH]; simpl; [reflexivity |].
  now rewrite IH, !app_assoc.
Qed.

End Records.

(** ** The quantisers against the specification *)

Section Quantizers.

Import LutGen.

Lemma pow2_13 : 2 ^ 13 = 8192.
Proof. simpl. lra. Qed.

Lemma pow2_14 : 2 ^ 14 = 16384.
Proof. simpl. lra. Qed.

Lemma pow2_15 : 2 ^ 15 = 32768.
Proof. simpl. lra. Qed.

Lemma clamp_signed16_inside (q : Z) :
  (-32768 <= q <= 32767)%Z -> Spec.clamp 16 true q = q.
Proof.
  intros H. unfold Spec.clamp, Spec.range_lo, Spec.range_hi.
  change (2 ^ (Z.of_nat 16 - 1))%Z with 32768%Z. lia.
Qed.

(** C1: the arccosine generator quantises as stated: every value is
    [round(v * 2^13)] under round-to-nearest and lies in the signed 16-bit
    range.  The sigmoid generator, which announces Q0.15, does not: index
    512 samples [x = 0], the sigmoid is one half, whose Q0.15 encoding is
    16384 under any round-to-nearest rule, and the script writes 16383. *)
Theorem C1_sigmoid_quantizer_at_512 :
  (forall i : nat, exists theta : R,
      Py.math_acos (AcosLutGen.val_of i) = Some theta /\
      AcosLutGen.theta_q13 i = Some (Py.round (theta * 2 ^ 13)) /\
      Spec.quantized 16 13 true theta (Py.round (theta * 2 ^ 13))) /\
  x_of 512 = 0 /\
  sigmoid (x_of 512) = 1 / 2 /\
  sig_fixed_of (x_of 512) = 16383%Z /\
  Spec.quantized 16 15 true (sigmoid (x_of 512)) 16384 /\
  ~ Spec.quantized 16 15 true (sigmoid (x_of 512)) (sig_fixed_of (x_of 512)).
Proof.
  split.
  { intros i. exists (acos (AcosLutGen.val_of i)).
    split; [apply math_acos_inside, clamp_range |].
    split; [apply theta_q13_value |].
    exists (Py.round (acos (AcosLutGen.val_of i) * 2 ^ 13)). split.
    - apply round_nearest.
    - symmetry. apply clamp_signed16_inside.
      pose proof (quantize_range (AcosLutGen.val_of i)) as H.
      unfold AcosLutGen.quantize in H. lia. }
  rewrite x_of_512, sigmoid_0, sig_fixed_0.
  split; [reflexivity |]. split; [reflexivity |]. split; [reflexivity |].
  split.
  - exists 16384%Z. split.
    + unfold Spec.nearest. rewrite pow2_15. apply Rabs_le. lra.
    + symmetry. apply clamp_signed16_inside. lia.
  - intros [q [Hn Hc]].
    unfold Spec.nearest in Hn. apply Rabs_le_both in Hn. rewrite pow2_15 in Hn.
    assert (Hq : q = 16384%Z).
    { apply Z.le_antisymm.
      - apply Z.lt_succ_r, lt_IZR. simpl. lra.
      - apply Z.lt_pred_le, lt_IZR. simpl. lra. }
    subst q. rewrite clamp_signed16_inside in Hc by lia. discriminate Hc.
Qed.




(** C3: every entry of the arccosine table decodes to within half a
    step, [2^-14], of the angle, hence within [2^-13].  The sigmoid table
    does not keep the bound: index 576 samples [x = 1], the channel written
    is 23954, and the sigmoid of 1 is above [23955 / 2^15], more than one
    step of Q0.15 away. *)
Theorem C3_round_trip_at_576 :
  (forall i : nat, exists (theta : R) (q : Z),
      Py.math_acos (AcosLutGen.val_of i) = Some theta /\
      AcosLutGen.theta_q13 i = Some q /\
      Rabs (Spec.decode 13 q - theta) <= / 2 ^ 14 /\
      Rabs (Spec.decode 13 q - theta) <= / 2 ^ 13) /\
  x_of 576 = 1 /\
  sig_fixed_of (x_of 576) = 23954%Z /\
  23955 / 2 ^ 15 < sigmoid (x_of 576) /\
  Rabs (Spec.decode 15 (sig_fixed_of (x_of 576)) - sigmoid (x_of 576))
  > / 2 ^ 15.
Proof.
  split.
  { intros i.
    exists (acos (AcosLutGen.val_of i)),
           (AcosLutGen.quantize (acos (AcosLutGen.val_of i))).
    split; [apply math_acos_inside, clamp_range |].
    split; [apply theta_q13_value |].
    unfold Spec.decode, AcosLutGen.quantize.
    pose proof (round_nearest (acos (AcosLutGen.val_of i) * 2 ^ 13)) as H.
    apply Rabs_le_both in H. rewrite pow2_13 in *. rewrite pow2_14.
    split; apply Rabs_le; lra. }
  rewrite x_of_576, sig_fixed_1. unfold Spec.decode. rewrite pow2_15.
  destruct sigmoid_1_bounds as [L _].
  split; [reflexivity |]. split; [reflexivity |]. split; [exact L |].
  rewrite Rabs_left by lra. lra.
Qed.

End Quantizers.

(** ** The packed word *)

Section Packing.

Import LutGen.

Local Open Scope Z_scope.

Lemma land_mask16 (c : Z) : Z.land c 65535 = c mod 65536.
Proof. change 65535 with (Z.ones 16). rewrite Z.land_ones by lia. reflexivity. Qed.

Lemma shifted_disjoint (d s : Z) : Z.land (Z.shiftl d 16) (s mod 2 ^ 16) = 0.
Proof.
  apply Z.bits_inj'. intros n Hn. rewrite Z.land_spec, Z.bits_0.
  destruct (Z.lt_ge_cases n 16) as [Hlt | Hge].
  - rewrite Z.shiftl_spec_low by exact Hlt. reflexivity.
  - rewrite Z.mod_pow2_bits_high by lia. apply andb_false_r.
Qed.

(** The shifted upper channel and a 16-bit lower channel share no bit, so
    the bitwise OR is their sum. *)
Lemma pack_sum (d s : Z) : pack d s = d * 65536 + s mod 65536.
Proof.
  unfold pack. rewrite land_mask16. change 65536 with (2 ^ 16).
  rewrite <- Z.lxor_lor by apply shifted_disjoint.
  rewrite <- Z.add_nocarry_lxor by apply shifted_disjoint.
  rewrite Z.shiftl_mul_pow2 by lia. reflexivity.
Qed.

Lemma pack_pack2 (d s : Z) : 0 <= d < 65536 -> pack d s = Spec.pack2 s d.
Proof.
  intros Hd. unfold pack, Spec.pack2.
  rewrite Z.shiftl_0_r, (land_mask16 d), Z.mod_small by exact Hd. reflexivity.
Qed.

(** The mask is applied to the lower channel only: a wider upper channel
    would reach bit 32. *)
Lemma pack_upper_unmasked : pack 0x10000 0 = 2 ^ 32 /\ Spec.pack2 0 0x10000 = 0.
Proof. split; reflexivity. Qed.

(** C4: the word of every table input is the two channels, each masked to
    16 bits, shifted to bits 31..16 and 15..0 and combined with OR; reading
    the two fields of the word back gives the two channels; and channels
    0x1234 and 0x5678 pack to 0x56781234. *)
Theorem C4_packing :
  (forall x : R,
      val_of x = Spec.pack2 (sig_fixed_of x) (sig_d_fixed_of x) /\
      Z.land (val_of x) 65535 = sig_fixed_of x /\
      Z.shiftr (val_of x) 16 = sig_d_fixed_of x) /\
  pack 0x5678 0x1234 = 0x56781234 /\
  Spec.pack2 0x1234 0x5678 = 0x56781234.
Proof.
  split; [| split; reflexivity].
  intros x. pose proof (sig_fixed_range x) as Hs.
  pose proof (sig_d_fixed_range x) as Hd. unfold val_of.
  split; [apply pack_pack2; lia |].
  rewrite pack_sum, (Z.mod_small (sig_fixed_of x)) by lia. split.
  - rewrite land_mask16, Z.add_comm, Z.mod_add by lia. apply Z.mod_small. lia.
  - rewrite Z.shiftr_div_pow2 by lia. change (2 ^ 16) with 65536.
    rewrite Z.div_add_l by lia. rewrite (Z.div_small (sig_fixed_of x)) by lia. lia.
Qed.

(** C9: the derivative is in [0, 1/4], its channel in [0, 8191] and so
    below [2^14]; the shifted channel and the whole word stay below
    [2^32], with no bit at position 32 or above. *)
Theorem C9_word_range (x : R) :
  (0 <= sigmoid_derivative x <= 1 / 4)%R /\
  0 <= sig_d_fixed_of x <= 8191 /\
  sig_d_fixed_of x < 2 ^ 14 /\
  0 <= Z.shiftl (sig_d_fixed_of x) 16 < 2 ^ 32 /\
  0 <= val_of x < 2 ^ 32 /\
  Z.shiftr (val_of x) 32 = 0.
Proof.
  pose proof (sig_fixed_range x) as Hs.
  pose proof (sig_d_fixed_range x) as Hd.
  assert (Hv : 0 <= val_of x < 2 ^ 32).
  { unfold val_of. rewrite pack_sum, (Z.mod_small (sig_fixed_of x)) by lia.
    change (2 ^ 32) with 4294967296. lia. }
  split; [apply sigmoid_derivative_range |].
  split; [exact Hd |].
  split; [change (2 ^ 14) with 16384; lia |].
  split; [rewrite Z.shiftl_mul_pow2 by lia;
          change (2 ^ 16) with 65536; change (2 ^ 32) with 4294967296; lia |].
  split; [exact Hv |].
  rewrite Z.shiftr_div_pow2 by lia. apply Z.div_small. exact Hv.
Qed.

End Packing.

(** ** The files written *)

Section Files.

Import Text.

Lemma filter_true {A : Type} (f : A -> bool) (l : list A) :
  Forall (fun a => f a = true) l -> filter f l = l.
Proof.
  induction 1 as [| a l Ha _ IH]; simpl; [reflexivity |]. now rewrite Ha, IH.
Qed.

Lemma records_are_lines {A : Type} (f : A -> string) (l : list A) :
  (forall a, all_chars record_char (f a) = true) ->
  Forall (fun s => all_chars line_char s = true) (map f l).
Proof.
  intros Hf. apply Forall_forall. intros s Hs.
  apply in_map_iff in Hs as [a [<- _]]. apply record_char_line_char, Hf.
Qed.

Lemma records_are_data {A : Type} (f : A -> string) (l : list A) :
  (forall a, all_chars record_char (f a) = true) ->
  Forall (fun s => negb (Spec.is_comment s) = true) (map f l).
Proof.
  intros Hf. apply Forall_forall. intros s Hs.
  apply in_map_iff in Hs as [a [<- _]]. now rewrite record_not_comment.
Qed.

(** *** The sigmoid file *)

Lemma lut_content_unlines :
  LutGen.content
  = unlines (LutGen.header ++ map LutGen.record (seq 0 LutGen.num_entries)).
Proof.
  unfold LutGen.content. cbv zeta. unfold LutGen.body.
  rewrite (fold_write_lines LutGen.record).
  rewrite (fold_write_lines (fun h : string => h)).
  rewrite map_id, unlines_app. reflexivity.
Qed.

Lemma lut_record_chars (i : nat) : all_chars record_char (LutGen.record i) = true.
Proof. apply format_hex_chars. Qed.

Lemma lut_header_lines :
  Forall (fun s => all_chars line_char s = true) LutGen.header.
Proof. repeat constructor. Qed.

Lemma lut_lines :
  Py.lines LutGen.content
  = (LutGen.header ++ map LutGen.record (seq 0 LutGen.num_entries))%list.
Proof.
  rewrite lut_content_unlines. apply lines_unlines.
  apply Forall_app. split; [apply lut_header_lines |].
  apply records_are_lines, lut_record_chars.
Qed.

Lemma lut_data_records :
  Spec.data_records LutGen.content
  = map LutGen.record (seq 0 LutGen.num_entries).
Proof.
  unfold Spec.data_records. rewrite lut_lines, filter_app.
  rewrite (filter_true _ (map _ _)) by apply records_are_data, lut_record_chars.
  reflexivity.
Qed.

(** *** The arccosine file *)

Lemma entry_record_value (i : nat) :
  AcosLutGen.entry_record i = Some (AcosLutGen.record i).
Proof. unfold AcosLutGen.entry_record. now rewrite theta_q13_value. Qed.

Lemma acos_fold (l : list nat) :
  forall buf : string,
    fold_left AcosLutGen.body l (Some buf)
    = Some (buf ++ unlines (map AcosLutGen.record l))%string.
Proof.
  induction l as [| i l IH]; intros buf; simpl.
  - now rewrite app_empty_r.
  - rewrite theta_q13_value, IH. unfold Py.write, AcosLutGen.record.
    now rewrite !app_assoc.
Qed.

Lemma acos_content_unlines :
  AcosLutGen.content
  = Some (unlines (map AcosLutGen.record (seq 0 AcosLutGen.entries))).
Proof. unfold AcosLutGen.content. now rewrite acos_fold. Qed.

Lemma acos_record_chars (i : nat) : all_chars record_char (AcosLutGen.record i) = true.
Proof. apply format_hex_chars. Qed.

Lemma acos_lines :
  Py.lines (unlines (map AcosLutGen.record (seq 0 AcosLutGen.entries)))
  = map AcosLutGen.record (seq 0 AcosLutGen.entries).
Proof. apply lines_unlines, records_are_lines, acos_record_chars. Qed.

Lemma acos_data_records :
  Spec.data_records (unlines (map AcosLutGen.record (seq 0 AcosLutGen.entries)))
  = map AcosLutGen.record (seq 0 AcosLutGen.entries).
Proof.
  unfold Spec.data_records. rewrite acos_lines.
  apply filter_true, records_are_data, acos_record_chars.
Qed.

End Files.

(** ** The tables as written *)

Section Tables.

Import Text.

(** C5: the arccosine file has exactly 256 data records and the sigmoid
    file exactly 1024; the data records are the entries' records in index
    order, each once; the three leading lines of the sigmoid file begin
    with the comment marker and are not data records. *)
Theorem C5_record_count :
  (exists c : string,
      AcosLutGen.content = Some c /\
      map Some (Spec.data_records c)
      = map AcosLutGen.entry_record (seq 0 256) /\
      List.length (Spec.data_records c) = 256%nat /\
      Py.lines c = Spec.data_records c) /\
  (Spec.data_records LutGen.content = map LutGen.record (seq 0 1024) /\
   List.length (Spec.data_records LutGen.content) = 1024%nat /\
   Py.lines LutGen.content
   = (LutGen.header ++ Spec.data_records LutGen.content)%list /\
   forallb Spec.is_comment LutGen.header = true).
Proof.
  split.
  - exists (unlines (map AcosLutGen.record (seq 0 AcosLutGen.entries))).
    split; [apply acos_content_unlines |].
    rewrite acos_data_records, acos_lines.
    split; [| split; [| reflexivity]].
    + rewrite map_map. apply map_ext. intros i.
      symmetry. apply entry_record_value.
    + now rewrite length_map, length_seq.
  - rewrite lut_data_records, lut_lines.
    split; [reflexivity |]. split; [| split; reflexivity].
    now rewrite length_map, length_seq.
Qed.

(** C6: index 0 samples [x = -1], its quantised value is 25736, the
    Q2.13 value of [acos(-1)], and the first record of the file written is
    6488; index 255 samples [x = 1], its value is 0, and the record at
    position 255, the last of the 256, is 0000. *)
Theorem C6_endpoints :
  (AcosLutGen.val_of 0 = -1 /\
   AcosLutGen.theta_q13 0 = Some 25736%Z /\
   AcosLutGen.entry_record 0 = Some "6488"%string) /\
  (AcosLutGen.val_of 255 = 1 /\
   AcosLutGen.theta_q13 255 = Some 0%Z /\
   AcosLutGen.entry_record 255 = Some "0000"%string) /\
  (exists c : string,
      AcosLutGen.content = Some c /\
      List.length (Py.lines c) = 256%nat /\
      nth_error (Py.lines c) 0 = Some "6488"%string /\
      nth_error (Py.lines c) 255 = Some "0000"%string /\
      nth_error (Spec.data_records c) 0 = Some "6488"%string /\
      nth_error (Spec.data_records c) 255 = Some "0000"%string).
Proof.
  assert (H0 : AcosLutGen.theta_q13 0 = Some 25736%Z).
  { now rewrite theta_q13_value, val_of_0, acos_m1, quantize_PI. }
  assert (H255 : AcosLutGen.theta_q13 255 = Some 0%Z).
  { now rewrite theta_q13_value, val_of_255, acos_1, quantize_0. }
  assert (R0 : AcosLutGen.record 0 = "6488"%string).
  { unfold AcosLutGen.record. now rewrite val_of_0, acos_m1, quantize_PI. }
  assert (R255 : AcosLutGen.record 255 = "0000"%string).
  { unfold AcosLutGen.record. now rewrite val_of_255, acos_1, quantize_0. }
  split; [| split].
  - split; [apply val_of_0 |]. split; [exact H0 |].
    unfold AcosLutGen.entry_record. rewrite H0. reflexivity.
  - split; [apply val_of_255 |]. split; [exact H255 |].
    unfold AcosLutGen.entry_record. rewrite H255. reflexivity.
  - exists (unlines (map AcosLutGen.record (seq 0 AcosLutGen.entries))).
    split; [apply acos_content_unlines |].
    rewrite acos_data_records, acos_lines.
    assert (N0 : nth_error (map AcosLutGen.record (seq 0 AcosLutGen.entries)) 0
                 = Some "6488"%string).
    { rewrite nth_error_map.
      change (nth_error (seq 0 AcosLutGen.entries) 0) with (Some 0%nat).
      cbn [option_map]. now rewrite R0. }
    assert (N255 : nth_error (map AcosLutGen.record (seq 0 AcosLutGen.entries)) 255
                   = Some "0000"%string).
    { rewrite nth_error_map.
      replace (nth_error (seq 0 AcosLutGen.entries) 255) with (Some 255%nat)
        by reflexivity.
      cbn [option_map]. now rewrite R255. }
    split; [now rewrite length_map, length_seq |].
    repeat split; assumption.
Qed.

(** C7: the sample of index [i] is [i] over half of [N - 1], minus one,
    with [N = 256], then clamped to [-1, 1]; what reaches the arccosine is
    in [-1, 1], so the evaluator returns. *)
Theorem C7_sampler (i : nat) :
  AcosLutGen.raw_val i = Spec.normalized 256 i /\
  AcosLutGen.val_of i = Py.max (-1) (Py.min 1 (Spec.normalized 256 i)) /\
  -1 <= AcosLutGen.val_of i <= 1 /\
  Py.math_acos (AcosLutGen.val_of i) = Some (acos (AcosLutGen.val_of i)).
Proof.
  assert (H : AcosLutGen.raw_val i = Spec.normalized 256 i).
  { unfold AcosLutGen.raw_val, Spec.normalized.
    replace (INR 256) with 256 by (rewrite INR_IZR_INZ; reflexivity).
    f_equal. f_equal. lra. }
  split; [exact H |].
  split; [unfold AcosLutGen.val_of, AcosLutGen.clamp; now rewrite H |].
  split; [apply clamp_range | apply math_acos_inside, clamp_range].
Qed.

(** The arccosine script never takes the [except] branch: it ends with the
    file written, whatever the files were before. *)
Lemma acos_script_written (s : Py.fs) :
  exists c : string,
    AcosLutGen.content = Some c /\
    AcosLutGen.script s = AcosLutGen.Written (Py.store AcosLutGen.output_file c s).
Proof.
  exists (unlines (map AcosLutGen.record (seq 0 AcosLutGen.entries))).
  unfold AcosLutGen.script. rewrite acos_content_unlines. split; reflexivity.
Qed.

(** C10: every entry of the arccosine table has a quantised value in
    [0, 25736], below [2^16], and its record is exactly four hexadecimal
    digits. *)
Theorem C10_acos_record (i : nat) :
  exists q : Z,
    AcosLutGen.theta_q13 i = Some q /\
    (0 <= q <= 25736)%Z /\
    (q < 2 ^ 16)%Z /\
    AcosLutGen.entry_record i = Some (AcosLutGen.record_of q) /\
    String.length (AcosLutGen.record_of q) = 4%nat /\
    all_chars (hex_char false) (AcosLutGen.record_of q) = true.
Proof.
  exists (AcosLutGen.quantize (acos (AcosLutGen.val_of i))).
  pose proof (quantize_range (AcosLutGen.val_of i)) as Hq.
  split; [apply theta_q13_value |].
  split; [exact Hq |].
  split; [change (2 ^ 16)%Z with 65536%Z; lia |].
  split; [apply entry_record_value |].
  split.
  - apply (format_hex_width false 3).
    change (16 ^ Z.of_nat 4)%Z with 65536%Z. lia.
  - apply format_hex_digits. lia.
Qed.

(** The record in the middle of the sigmoid table: the derivative is one
    quarter (8191), the sigmoid one half (16383). *)
Example lut_record_512 : LutGen.record 512 = "1FFF3FFF"%string.
Proof.
  unfold LutGen.record, LutGen.val_of, LutGen.sig_d_fixed_of,
    LutGen.sigmoid_derivative. cbv zeta.
  rewrite x_of_512, sig_fixed_0, sigmoid_0.
  replace (Py.int (1 / 2 * (1 - 1 / 2) * 32767)) with 8191%Z.
  - reflexivity.
  - symmetry. apply int_nonneg_unique; [simpl; lra | lia].
Qed.

(** Read from left to right, [(i / (N - 1)) / 2 - 1] would be another
    sampler: at index 255 it gives one half below zero, where the script
    samples 1. *)
Remark sampler_other_reading :
  INR 255 / (INR 256 - 1) / 2 - 1 = - (1 / 2) /\ AcosLutGen.val_of 255 = 1.
Proof.
  split; [| apply val_of_255].
  rewrite !INR_IZR_INZ. simpl. lra.
Qed.

End Tables.

(** ** The shape of the sigmoid and of its table *)

Section SigmoidShape.

Import LutGen.

Lemma exp_8_bounds : 29805 / 10 <= exp 8 <= 29816 / 10.
Proof.
  destruct exp_1_bounds as [L1 U1].
  assert (L2 : 73888 / 10000 <= exp 2).
  { apply (exp_double_lower 1 2 (27182403476556 / 10000000000000)); lra. }
  assert (U2 : exp 2 <= 73894 / 10000).
  { apply (exp_double_upper 1 2 (27183233135226 / 10000000000000)); lra. }
  assert (L4 : 54594 / 1000 <= exp 4).
  { apply (exp_double_lower 2 4 (73888 / 10000)); lra. }
  assert (U4 : exp 4 <= 54604 / 1000).
  { apply (exp_double_upper 2 4 (73894 / 10000)); lra. }
  split.
  - apply (exp_double_lower 4 8 (54594 / 1000)); lra.
  - apply (exp_double_upper 4 8 (54604 / 1000)); lra.
Qed.

(** The logistic function itself, away from the guards. *)
Lemma logistic_complement (x : R) :
  1 / (1 + exp (- - x)) = 1 - 1 / (1 + exp (- x)).
Proof.
  rewrite Ropp_involutive, exp_Ropp. pose proof (exp_pos x). field. lra.
Qed.

Lemma sigmoid_complement (x : R) : sigmoid (- x) = 1 - sigmoid x.
Proof.
  destruct (Rlt_dec x (-10)) as [Hlo | Hlo].
  - rewrite (sigmoid_below x Hlo), sigmoid_above by lra. lra.
  - destruct (Rlt_dec 10 x) as [Hhi | Hhi].
    + rewrite (sigmoid_above x Hhi), sigmoid_below by lra. lra.
    + rewrite (sigmoid_middle x), (sigmoid_middle (- x)) by lra.
      apply logistic_complement.
Qed.

Lemma sigmoid_derivative_even (x : R) :
  sigmoid_derivative (- x) = sigmoid_derivative x.
Proof. unfold sigmoid_derivative. cbv zeta. rewrite sigmoid_complement. ring. Qed.

Lemma logistic_monotone (x y : R) :
  x <= y -> 1 / (1 + exp (- x)) <= 1 / (1 + exp (- y)).
Proof.
  intros Hxy. pose proof (exp_pos (- x)). pose proof (exp_pos (- y)).
  assert (exp (- y) <= exp (- x)).
  { destruct Hxy as [Hlt | ->]; [| lra]. left. apply exp_increasing. lra. }
  unfold Rdiv. rewrite !Rmult_1_l. apply Rinv_le_contravar; lra.
Qed.

(** The guards keep the order: 0 below, 1 above. *)
Lemma sigmoid_monotone (x y : R) : x <= y -> sigmoid x <= sigmoid y.
Proof.
  intros Hxy. pose proof (sigmoid_range x) as Hx. pose proof (sigmoid_range y) as Hy.
  destruct (Rlt_dec x (-10)) as [Hlo | Hlo].
  - rewrite (sigmoid_below x Hlo). lra.
  - destruct (Rlt_dec 10 y) as [Hhi | Hhi].
    + rewrite (sigmoid_above y Hhi). lra.
    + rewrite (sigmoid_middle x), (sigmoid_middle y) by lra.
      now apply logistic_monotone.
Qed.

Lemma int_monotone (a b : R) : 0 <= a -> a <= b -> (Py.int a <= Py.int b)%Z.
Proof.
  intros Ha Hab.
  pose proof (int_nonneg_bounds a Ha) as [La Ua].
  pose proof (int_nonneg_bounds b ltac:(lra)) as [Lb Ub].
  apply Z.lt_succ_r, lt_IZR. rewrite succ_IZR. lra.
Qed.

Lemma sig_fixed_monotone (x y : R) :
  x <= y -> (sig_fixed_of x <= sig_fixed_of y)%Z.
Proof.
  intros Hxy. unfold sig_fixed_of. pose proof (sigmoid_range x).
  pose proof (sigmoid_monotone x y Hxy). apply int_monotone; lra.
Qed.

(** The sampler: [step] is one sixty-fourth. *)
Lemma x_of_value (i : nat) : x_of i = -8 + INR i / 64.
Proof.
  unfold x_of, step, min_val, max_val, num_entries.
  replace (INR 1024) with 1024 by (rewrite INR_IZR_INZ; reflexivity). lra.
Qed.

Lemma x_of_range (i : nat) : (i < 1024)%nat -> -8 <= x_of i < 8.
Proof.
  intros Hi. rewrite x_of_value. pose proof (pos_INR i).
  assert (INR i <= 1023).
  { replace 1023 with (INR 1023) by (rewrite INR_IZR_INZ; reflexivity).
    apply le_INR. lia. }
  lra.
Qed.

Lemma x_of_monotone (i j : nat) : (i <= j)%nat -> x_of i <= x_of j.
Proof. intros Hij. rewrite !x_of_value. apply le_INR in Hij. lra. Qed.

Lemma x_of_mirror (i : nat) : (i <= 1024)%nat -> x_of (1024 - i) = - x_of i.
Proof.
  intros Hi. rewrite !x_of_value, minus_INR by exact Hi.
  replace (INR 1024) with 1024 by (rewrite INR_IZR_INZ; reflexivity). lra.
Qed.

Lemma sigmoid_m8_bound : 109 / 327670 <= sigmoid (-8).
Proof.
  rewrite sigmoid_middle by lra. replace (- -8) with 8 by lra.
  destruct exp_8_bounds as [L U].
  apply Rmult_le_reg_r with (1 + exp 8); [lra |].
  unfold Rdiv at 2. rewrite Rmult_assoc, Rinv_l by lra. lra.
Qed.

Lemma sigmoid_8_bound : sigmoid 8 <= 1 - 109 / 327670.
Proof.
  replace 8 with (- -8) by lra. rewrite sigmoid_complement.
  pose proof sigmoid_m8_bound. lra.
Qed.

(** X2: the derivative channel of the table is symmetric about index 512:
    the entries at [1024 - i] and at [i] carry the same derivative. *)
Theorem X2_table_derivative_mirror (i : nat) :
  (1 <= i <= 1023)%nat ->
  x_of (1024 - i) = - x_of i /\
  sig_d_fixed_of (x_of (1024 - i)) = sig_d_fixed_of (x_of i).
Proof.
  intros Hi. assert (Hm : x_of (1024 - i) = - x_of i) by (apply x_of_mirror; lia).
  split; [exact Hm |].
  rewrite Hm. unfold sig_d_fixed_of. now rewrite sigmoid_derivative_even.
Qed.

Lemma X2_table_derivative_mirror_witness :
  x_of (1024 - 1) = - x_of 1 /\
  sig_d_fixed_of (x_of (1024 - 1)) = sig_d_fixed_of (x_of 1).
Proof. apply (X2_table_derivative_mirror 1). lia. Defined.

(** X3: the sigmoid channel never decreases along the table, nor anywhere
    else: the saturated values 0 and 1 keep the order of the logistic
    function between them. *)
Theorem X3_sigmoid_channel_monotone (i j : nat) (x y : R) :
  (i <= j)%nat -> x <= y ->
  (sig_fixed_of (x_of i) <= sig_fixed_of (x_of j))%Z /\
  sigmoid x <= sigmoid y /\
  (sig_fixed_of x <= sig_fixed_of y)%Z.
Proof.
  intros Hij Hxy.
  split; [apply sig_fixed_monotone, x_of_monotone, Hij |].
  split; [now apply sigmoid_monotone | now apply sig_fixed_monotone].
Qed.

Lemma X3_sigmoid_channel_monotone_witness :
  (sig_fixed_of (x_of 0) <= sig_fixed_of (x_of 1023))%Z /\
  sigmoid (-11) <= sigmoid 11 /\
  (sig_fixed_of (-11) <= sig_fixed_of 11)%Z.
Proof. apply (X3_sigmoid_channel_monotone 0 1023 (-11) 11); [lia | lra]. Defined.

(** X4: no entry of the table reaches a guard: every sample lies in
    [-8, 8), one sixty-fourth apart, so the sigmoid is the logistic
    function there; the sigmoid channel stays within [10, 32756] and the
    derivative channel within [10, 8191], neither 0 nor 0x7FFF. *)
Theorem X4_table_unsaturated (i : nat) :
  (i < 1024)%nat ->
  x_of i = -8 + INR i / 64 /\
  -8 <= x_of i < 8 /\
  sigmoid (x_of i) = 1 / (1 + exp (- x_of i)) /\
  (10 <= sig_fixed_of (x_of i) <= 32756)%Z /\
  (10 <= sig_d_fixed_of (x_of i) <= 8191)%Z.
Proof.
  intros Hi. pose proof (x_of_range i Hi) as Hx.
  split; [apply x_of_value |]. split; [exact Hx |].
  split; [apply sigmoid_middle; lra |].
  pose proof (sigmoid_monotone (-8) (x_of i) ltac:(lra)) as Hlo.
  pose proof (sigmoid_monotone (x_of i) 8 ltac:(lra)) as Hhi.
  pose proof sigmoid_m8_bound as H8. pose proof sigmoid_8_bound as H8'.
  set (s := sigmoid (x_of i)) in *.
  assert (Hs : 109 / 327670 <= s <= 1 - 109 / 327670) by lra.
  split.
  - unfold sig_fixed_of. fold s.
    pose proof (int_nonneg_bounds (s * 32767) ltac:(lra)) as [Hl Hu].
    split.
    + apply Z.lt_pred_le, lt_IZR. unfold Z.pred. rewrite plus_IZR. simpl. lra.
    + apply Z.lt_succ_r, lt_IZR. rewrite succ_IZR. lra.
  - split; [| apply sig_d_fixed_range].
    unfold sig_d_fixed_of, sigmoid_derivative. cbv zeta. fold s.
    assert (Hd : 10003 / 32767000 <= s * (1 - s)).
    { assert (0 <= (s - 109 / 327670) * (1 - 109 / 327670 - s))
        by (apply Rmult_le_pos; lra).
      lra. }
    pose proof (int_nonneg_bounds (s * (1 - s) * 32767) ltac:(lra)) as [Hl Hu].
    apply Z.lt_pred_le, lt_IZR. unfold Z.pred. rewrite plus_IZR. simpl.
    lra.
Qed.

Lemma X4_table_unsaturated_witness :
  x_of 0 = -8 + INR 0 / 64 /\
  -8 <= x_of 0 < 8 /\
  sigmoid (x_of 0) = 1 / (1 + exp (- x_of 0)) /\
  (10 <= sig_fixed_of (x_of 0) <= 32756)%Z /\
  (10 <= sig_d_fixed_of (x_of 0) <= 8191)%Z.
Proof. apply (X4_table_unsaturated 0). lia. Defined.

End SigmoidShape.

(** ** [sigmoid_derivative] as a derivative *)

Section SigmoidCalculus.

Import LutGen.

Lemma logistic_derivative (x : R) :
  derivable_pt_lim (fun z => 1 / (1 + exp (- z))) x
    (1 / (1 + exp (- x)) * (1 - 1 / (1 + exp (- x)))).
Proof.
  pose proof (exp_pos (- x)) as He.
  assert (Hopp : derivable_pt_lim (opp_fct id) x (- 1)).
  { apply derivable_pt_lim_opp, derivable_pt_lim_id. }
  assert (Hexp : derivable_pt_lim (comp exp (opp_fct id)) x (exp (- x) * - 1)).
  { apply derivable_pt_lim_comp; [exact Hopp |]. apply derivable_pt_lim_exp. }
  assert (Hden : derivable_pt_lim (plus_fct (fct_cte 1) (comp exp (opp_fct id))) x
                   (0 + exp (- x) * - 1)).
  { apply derivable_pt_lim_plus; [apply derivable_pt_lim_const | exact Hexp]. }
  pose proof (derivable_pt_lim_div (fct_cte 1) (plus_fct (fct_cte 1) (comp exp (opp_fct id)))
                x 0 _ (derivable_pt_lim_const 1 x) Hden) as Hdiv.
  assert (Hne : (plus_fct (fct_cte 1) (comp exp (opp_fct id))) x <> 0).
  { unfold plus_fct, fct_cte, comp, opp_fct, id. lra. }
  specialize (Hdiv Hne).
  apply derivable_pt_lim_ext
    with (f := (div_fct (fct_cte 1) (plus_fct (fct_cte 1) (comp exp (opp_fct id))))).
  - intros z. unfold div_fct, plus_fct, fct_cte, comp, opp_fct, id. reflexivity.
  - unfold plus_fct, fct_cte, comp, opp_fct, id, Rsqr in Hdiv.
    replace (1 / (1 + exp (- x)) * (1 - 1 / (1 + exp (- x))))
      with ((0 * (1 + exp (- x)) - (0 + exp (- x) * - 1) * 1)
            / ((1 + exp (- x)) * (1 + exp (- x))))
      by (field; lra).
    exact Hdiv.
Qed.

Lemma constant_derivative (c x : R) : derivable_pt_lim (fun _ => c) x 0.
Proof. apply (derivable_pt_lim_const c x). Qed.

(** X5: away from the two guards the function [sigmoid_derivative] is the
    derivative of [sigmoid], in the saturated parts (where both are
    constant) as well as between them. *)
Theorem X5_derivative_correct (x : R) :
  x <> -10 -> x <> 10 ->
  derivable_pt_lim sigmoid x (sigmoid_derivative x).
Proof.
  intros Hlo Hhi. unfold sigmoid_derivative. cbv zeta.
  destruct (Rlt_dec x (-10)) as [H1 | H1].
  - rewrite (sigmoid_below x H1). replace (0 * (1 - 0)) with 0 by lra.
    apply derivable_pt_lim_locally_ext
      with (f := fun _ : R => 0) (a := x - 1) (b := -10); [lra | |].
    + intros z Hz. symmetry. apply sigmoid_below. lra.
    + apply constant_derivative.
  - destruct (Rlt_dec 10 x) as [H2 | H2].
    + rewrite (sigmoid_above x H2). replace (1 * (1 - 1)) with 0 by lra.
      apply derivable_pt_lim_locally_ext
        with (f := fun _ : R => 1) (a := 10) (b := x + 1); [lra | |].
      * intros z Hz. symmetry. apply sigmoid_above. lra.
      * apply constant_derivative.
    + rewrite (sigmoid_middle x) by lra.
      apply derivable_pt_lim_locally_ext
        with (f := fun z => 1 / (1 + exp (- z))) (a := -10) (b := 10); [lra | |].
      * intros z Hz. symmetry. apply sigmoid_middle. lra.
      * apply logistic_derivative.
Qed.

Lemma X5_derivative_correct_witness :
  derivable_pt_lim sigmoid 0 (sigmoid_derivative 0).
Proof. apply (X5_derivative_correct 0); lra. Defined.

(** X6: at each guard the sigmoid jumps: it is 0 just below -10 and at
    least 1/32767 at -10, and 1 just above 10 and at most 32766/32767 at
    10; it is continuous at neither. *)
Theorem X6_jump_at_guards :
  ~ continuity_pt sigmoid (-10) /\ ~ continuity_pt sigmoid 10.
Proof.
  split; intros Hc.
  - destruct (Hc (1 / 32767) ltac:(lra)) as [alp [Halp H]].
    specialize (H (-10 - alp / 2)).
    assert (Hd : D_x no_cond (-10) (-10 - alp / 2) /\
                 Rlimit.dist R_met (-10 - alp / 2) (-10) < alp).
    { split; [split; [exact I | lra] |].
      simpl. unfold Rdist. rewrite Rabs_left by lra. lra. }
    specialize (H Hd). simpl in H. unfold Rdist in H.
    rewrite sigmoid_below in H by lra.
    destruct sigmoid_m10_bounds as [L _].
    rewrite Rabs_left in H by lra. lra.
  - destruct (Hc (1 / 32767) ltac:(lra)) as [alp [Halp H]].
    specialize (H (10 + alp / 2)).
    assert (Hd : D_x no_cond 10 (10 + alp / 2) /\
                 Rlimit.dist R_met (10 + alp / 2) 10 < alp).
    { split; [split; [exact I | lra] |].
      simpl. unfold Rdist. rewrite Rabs_right by lra. lra. }
    specialize (H Hd). simpl in H. unfold Rdist in H.
    rewrite sigmoid_above in H by lra.
    destruct sigmoid_10_bounds as [_ U].
    rewrite Rabs_right in H by lra. lra.
Qed.

End SigmoidCalculus.

(** ** The shape of the arccosine table *)

Section ArccosineShape.

Import AcosLutGen.

Lemma round_monotone (r1 r2 : R) : r1 <= r2 -> (Py.round r1 <= Py.round r2)%Z.
Proof.
  intros [Hlt | ->]; [| lia].
  pose proof (round_nearest r1) as H1. pose proof (round_nearest r2) as H2.
  apply Rabs_le_both in H1. apply Rabs_le_both in H2.
  apply Z.lt_succ_r, lt_IZR. rewrite succ_IZR. lra.
Qed.

Lemma acos_antitone (x y : R) : -1 <= x -> x <= y -> y <= 1 -> acos y <= acos x.
Proof.
  intros Hx Hxy Hy. destruct (Rle_dec (acos y) (acos x)) as [H | H]; [exact H |].
  exfalso. apply Rnot_le_lt in H.
  pose proof (acos_bound x) as [Hx0 Hx1]. pose proof (acos_bound y) as [Hy0 Hy1].
  assert (Hc : cos (acos y) < cos (acos x)).
  { apply cos_decreasing_1; lra. }
  rewrite !cos_acos in Hc by lra. lra.
Qed.

Lemma clamp_monotone (u v : R) : u <= v -> clamp u <= clamp v.
Proof.
  intros Huv. unfold clamp, Py.max, Py.min.
  repeat (destruct (Rlt_dec _ _)); lra.
Qed.

Lemma raw_val_monotone (i j : nat) : (i <= j)%nat -> raw_val i <= raw_val j.
Proof. intros Hij. unfold raw_val. apply le_INR in Hij. lra. Qed.


Lemma raw_val_mirror (i : nat) : (i <= 255)%nat -> raw_val (255 - i) = - raw_val i.
Proof.
  intros Hi. unfold raw_val. rewrite minus_INR by exact Hi.
  replace (INR 255) with 255 by (rewrite INR_IZR_INZ; reflexivity). lra.
Qed.

Lemma val_of_inside (i : nat) : (i < 256)%nat -> val_of i = raw_val i.
Proof. intros Hi. apply clamp_inside, raw_val_inside, Hi. Qed.



(** X8: the table never increases: a larger index has a smaller or equal
    quantised angle. *)
Theorem X8_acos_table_antitone (i j : nat) :
  (i <= j)%nat ->
  exists qi qj : Z,
    theta_q13 i = Some qi /\ theta_q13 j = Some qj /\ (qj <= qi)%Z.
Proof.
  intros Hij.
  exists (quantize (acos (val_of i))), (quantize (acos (val_of j))).
  split; [apply theta_q13_value |]. split; [apply theta_q13_value |].
  unfold quantize. apply round_monotone.
  assert (Ha : acos (val_of j) <= acos (val_of i)).
  { pose proof (clamp_range (raw_val i)). pose proof (clamp_range (raw_val j)).
    apply acos_antitone; unfold val_of; try lra.
    apply clamp_monotone, raw_val_monotone, Hij. }
  rewrite pow2_13. lra.
Qed.

Lemma X8_acos_table_antitone_witness :
  exists qi qj : Z,
    theta_q13 0 = Some qi /\ theta_q13 255 = Some qj /\ (qj <= qi)%Z.
Proof. apply (X8_acos_table_antitone 0 255). lia. Defined.

(** X9: the table is antisymmetric up to rounding: the quantised angles at
    [i] and at [255 - i] add up to 25735 or 25736, the Q2.13 value of pi
    within one unit. *)
Theorem X9_acos_table_mirror (i : nat) :
  (i <= 255)%nat ->
  exists q q' : Z,
    theta_q13 i = Some q /\ theta_q13 (255 - i) = Some q' /\
    (25735 <= q + q' <= 25736)%Z.
Proof.
  intros Hi.
  exists (quantize (acos (val_of i))), (quantize (acos (val_of (255 - i)))).
  split; [apply theta_q13_value |]. split; [apply theta_q13_value |].
  assert (Hm : val_of (255 - i) = - val_of i).
  { rewrite !val_of_inside by lia. apply raw_val_mirror, Hi. }
  rewrite Hm, acos_opp. unfold quantize. rewrite pow2_13.
  pose proof (round_nearest (acos (val_of i) * 8192)) as H1.
  pose proof (round_nearest ((PI - acos (val_of i)) * 8192)) as H2.
  apply Rabs_le_both in H1. apply Rabs_le_both in H2.
  pose proof PI_bounds as [HL HU]. split.
  - apply Z.lt_pred_le, lt_IZR. unfold Z.pred. rewrite !plus_IZR. simpl. lra.
  - apply Z.lt_succ_r, lt_IZR. rewrite succ_IZR, plus_IZR. lra.
Qed.

Lemma X9_acos_table_mirror_witness :
  exists q q' : Z,
    theta_q13 0 = Some q /\ theta_q13 (255 - 0) = Some q' /\
    (25735 <= q + q' <= 25736)%Z.
Proof. apply (X9_acos_table_mirror 0). lia. Defined.

End ArccosineShape.

(** ** The digits of a record *)

Section RecordDigits.

Import Text.

Local Open Scope string_scope.

Lemma zeros_snoc (k : nat) : Py.zeros k ++ "0" = Py.zeros (S k).
Proof. induction k as [| k IH]; simpl; [reflexivity | now rewrite IH]. Qed.

Lemma fixed_hex_zero (upper : bool) (k : nat) : fixed_hex upper k 0 = Py.zeros k.
Proof.
  induction k as [| k IH]; [reflexivity |].
  cbn [fixed_hex]. change (0 / 16)%N with 0%N. change (0 mod 16)%N with 0%N.
  rewrite IH. destruct upper; apply zeros_snoc.
Qed.

Lemma pos_size_nat_bound (p : positive) :
  (N.pos p < 2 ^ N.of_nat (Pos.size_nat p))%N.
Proof.
  induction p as [p IH | p IH |]; cbn [Pos.size_nat];
    rewrite Nat2N.inj_succ, N.pow_succ_r'; lia.
Qed.

Lemma size_nat_bound (n : N) : (n < 2 ^ N.of_nat (S (N.size_nat n)))%N.
Proof.
  rewrite Nat2N.inj_succ, N.pow_succ_r'. destruct n as [| p]; [reflexivity |].
  pose proof (pos_size_nat_bound p). cbn [N.size_nat]. lia.
Qed.

Lemma hex_digits_step (upper : bool) (f : nat) (n : N) (acc : string) :
  Py.hex_digits upper (S f) n acc
  = if (n / 16 =? 0)%N then String (Py.hex_digit upper (n mod 16)) acc
    else Py.hex_digits upper f (n / 16)
           (String (Py.hex_digit upper (n mod 16)) acc).
Proof. reflexivity. Qed.

(** With enough fuel the digits, padded to [S k], are the [S k] low digits. *)
Lemma hex_digits_fixed (upper : bool) (f : nat) :
  forall (k : nat) (n : N) (acc : string),
    (n < 16 ^ N.of_nat (S k))%N ->
    (n < 2 ^ N.of_nat (S f))%N ->
    Py.zeros (S k + String.length acc
              - String.length (Py.hex_digits upper (S f) n acc))
    ++ Py.hex_digits upper (S f) n acc
    = fixed_hex upper (S k) n ++ acc.
Proof.
  induction f as [| f IH]; intros k n acc Hk Hf;
    rewrite hex_digits_step; cbn [fixed_hex]; destruct (n / 16 =? 0)%N eqn:Hq.
  - apply N.eqb_eq in Hq. rewrite Hq, fixed_hex_zero. cbn [String.length].
    replace (S k + String.length acc - S (String.length acc))%nat with k by lia.
    now rewrite app_assoc.
  - apply N.eqb_neq in Hq. exfalso. apply Hq, N.div_small.
    change (2 ^ N.of_nat 1)%N with 2%N in Hf. lia.
  - apply N.eqb_eq in Hq. rewrite Hq, fixed_hex_zero. cbn [String.length].
    replace (S k + String.length acc - S (String.length acc))%nat with k by lia.
    now rewrite app_assoc.
  - apply N.eqb_neq in Hq.
    assert (Hf' : (n / 16 < 2 ^ N.of_nat (S f))%N).
    { rewrite Nat2N.inj_succ, N.pow_succ_r' in Hf.
      apply N.Div0.div_lt_upper_bound. lia. }
    destruct k as [| k].
    { exfalso. apply Hq, N.div_small. exact Hk. }
    assert (Hk' : (n / 16 < 16 ^ N.of_nat (S k))%N).
    { apply N.Div0.div_lt_upper_bound.
      replace (N.of_nat (S (S k))) with (N.succ (N.of_nat (S k))) in Hk by lia.
      rewrite N.pow_succ_r' in Hk. exact Hk. }
    specialize (IH k (n / 16)%N
                  (String (Py.hex_digit upper (n mod 16)) acc) Hk' Hf').
    cbn [String.length] in IH.
    replace (S (S k) + String.length acc)%nat
      with (S k + S (String.length acc))%nat by lia.
    rewrite IH. rewrite (app_assoc (fixed_hex upper (S k) (n / 16))). reflexivity.
Qed.

Lemma format_hex_fixed (upper : bool) (k : nat) (z : Z) :
  (0 <= z < 16 ^ Z.of_nat (S k))%Z ->
  Py.format_hex upper (S k) z = fixed_hex upper (S k) (Z.abs_N z).
Proof.
  intros [H0 Hz]. unfold Py.format_hex.
  destruct (z <? 0)%Z eqn:Hneg; [apply Z.ltb_lt in Hneg; lia |].
  assert (Hn : (Z.abs_N z < 16 ^ N.of_nat (S k))%N).
  { apply N2Z.inj_lt. rewrite N2Z.inj_abs_N, Z.abs_eq by lia.
    rewrite N2Z.inj_pow, nat_N_Z. exact Hz. }
  pose proof (hex_digits_fixed upper (N.size_nat (Z.abs_N z)) k (Z.abs_N z)
                EmptyString Hn (size_nat_bound _)) as H.
  rewrite app_empty_r in H. cbn [String.length] in H.
  rewrite Nat.add_0_r in H. exact H.
Qed.

Lemma fixed_hex_split (upper : bool) (a b : nat) :
  forall d s : N,
    (s < 16 ^ N.of_nat b)%N ->
    fixed_hex upper (b + a) (d * 16 ^ N.of_nat b + s)
    = fixed_hex upper a d ++ fixed_hex upper b s.
Proof.
  induction b as [| b IH]; intros d s Hs.
  - change (16 ^ N.of_nat 0)%N with 1%N in *.
    replace s with 0%N by lia. rewrite N.mul_1_r, N.add_0_r.
    cbn [Nat.add fixed_hex]. now rewrite app_empty_r.
  - replace (N.of_nat (S b)) with (N.succ (N.of_nat b)) in * by lia.
    rewrite N.pow_succ_r' in *. cbn [Nat.add fixed_hex].
    replace (d * (16 * 16 ^ N.of_nat b) + s)%N
      with (s + (d * 16 ^ N.of_nat b) * 16)%N by lia.
    rewrite N.div_add, N.Div0.mod_add by lia.
    replace (s / 16 + d * 16 ^ N.of_nat b)%N
      with (d * 16 ^ N.of_nat b + s / 16)%N by lia.
    rewrite IH by (apply N.Div0.div_lt_upper_bound; lia).
    now rewrite app_assoc.
Qed.

End RecordDigits.

(** ** Layout and size of the files *)

Section Layout.

Import Text.

Local Open Scope string_scope.

Lemma unlines_length (k : nat) (ls : list string) :
  Forall (fun l => String.length l = k) ls ->
  String.length (unlines ls) = (List.length ls * S k)%nat.
Proof.
  induction 1 as [| l ls Hl _ IH]; [reflexivity |].
  cbn [unlines List.length]. rewrite !length_app, Hl, IH.
  unfold Py.newline. cbn [String.length]. lia.
Qed.

Lemma lut_record_fixed (i : nat) :
  LutGen.record i
  = fixed_hex true 4 (Z.abs_N (LutGen.sig_d_fixed_of (LutGen.x_of i)))
    ++ fixed_hex true 4 (Z.abs_N (LutGen.sig_fixed_of (LutGen.x_of i))).
Proof.
  unfold LutGen.record, LutGen.val_of.
  pose proof (sig_fixed_range (LutGen.x_of i)) as Hs.
  pose proof (sig_d_fixed_range (LutGen.x_of i)) as Hd.
  set (s := LutGen.sig_fixed_of (LutGen.x_of i)) in *.
  set (d := LutGen.sig_d_fixed_of (LutGen.x_of i)) in *.
  rewrite pack_sum, (Z.mod_small s) by lia.
  rewrite (format_hex_fixed true 7)
    by (change (16 ^ Z.of_nat 8)%Z with 4294967296%Z; lia).
  replace (Z.abs_N (d * 65536 + s))
    with (Z.abs_N d * 16 ^ N.of_nat 4 + Z.abs_N s)%N
    by (change (16 ^ N.of_nat 4)%N with 65536%N; lia).
  apply (fixed_hex_split true 4 4).
  change (16 ^ N.of_nat 4)%N with 65536%N. lia.
Qed.

Lemma lut_val_range (i : nat) :
  (0 <= LutGen.val_of (LutGen.x_of i) < 16 ^ Z.of_nat 8)%Z.
Proof.
  pose proof (sig_fixed_range (LutGen.x_of i)) as Hs.
  pose proof (sig_d_fixed_range (LutGen.x_of i)) as Hd.
  unfold LutGen.val_of.
  rewrite pack_sum, (Z.mod_small (LutGen.sig_fixed_of _)) by lia.
  change (16 ^ Z.of_nat 8)%Z with 4294967296%Z. lia.
Qed.

Lemma lut_record_length (i : nat) : String.length (LutGen.record i) = 8%nat.
Proof. apply (format_hex_width true 7), lut_val_range. Qed.

(** X10: a record of the sigmoid file is eight upper-case hexadecimal
    digits, without sign: the four digits of the derivative channel
    followed by the four digits of the sigmoid channel, as the header's
    second line announces. *)
Theorem X10_sigmoid_record_layout (i : nat) :
  LutGen.record i
  = Py.format_hex true 4 (LutGen.sig_d_fixed_of (LutGen.x_of i))
    ++ Py.format_hex true 4 (LutGen.sig_fixed_of (LutGen.x_of i)) /\
  String.length (LutGen.record i) = 8%nat /\
  all_chars (hex_char true) (LutGen.record i) = true.
Proof.
  pose proof (sig_fixed_range (LutGen.x_of i)) as Hs.
  pose proof (sig_d_fixed_range (LutGen.x_of i)) as Hd.
  assert (Hw : forall q : Z, (0 <= q <= 32767)%Z ->
            Py.format_hex true 4 q = fixed_hex true 4 (Z.abs_N q)).
  { intros q Hq. apply (format_hex_fixed true 3).
    change (16 ^ Z.of_nat 4)%Z with 65536%Z. lia. }
  split; [rewrite !Hw by lia; apply lut_record_fixed |].
  split; [apply lut_record_length |].
  apply format_hex_digits. pose proof (lut_val_range i). lia.
Qed.

(** X11: the files have a fixed size: 256 lines of four digits and an end
    of line make 1280 characters for the arccosine table; the three header
    lines (167 characters) and 1024 lines of eight digits make 9383 for the
    sigmoid table. *)
Theorem X11_file_sizes :
  (exists c : string,
      AcosLutGen.content = Some c /\ String.length c = 1280%nat) /\
  String.length LutGen.content = (167 + 1024 * 9)%nat.
Proof.
  split.
  - exists (unlines (map AcosLutGen.record (seq 0 AcosLutGen.entries))).
    split; [apply acos_content_unlines |].
    rewrite (unlines_length 4).
    + now rewrite length_map, length_seq.
    + apply Forall_forall. intros l Hl.
      apply in_map_iff in Hl as [i [<- _]].
      apply (format_hex_width false 3).
      pose proof (quantize_range (AcosLutGen.val_of i)).
      change (16 ^ Z.of_nat 4)%Z with 65536%Z. lia.
  - rewrite lut_content_unlines, unlines_app, length_app.
    rewrite (unlines_length 8 (map _ _)).
    + now rewrite length_map, length_seq.
    + apply Forall_forall. intros l Hl.
      apply in_map_iff in Hl as [i [<- _]].
      apply lut_record_length.
Qed.

End Layout.

(** ** The two channels along the table *)

Section Channels.

Import LutGen.

Lemma derivative_rising (x y : R) :
  x <= y -> y <= 0 -> sigmoid_derivative x <= sigmoid_derivative y.
Proof.
  intros Hxy Hy. unfold sigmoid_derivative. cbv zeta.
  pose proof (sigmoid_monotone x y Hxy) as H1.
  pose proof (sigmoid_monotone y 0 Hy) as H2. rewrite sigmoid_0 in H2.
  pose proof (sigmoid_range x) as [H0 _].
  assert (0 <= (sigmoid y - sigmoid x) * (1 - sigmoid x - sigmoid y))
    by (apply Rmult_le_pos; lra).
  lra.
Qed.

Lemma derivative_falling (x y : R) :
  0 <= x -> x <= y -> sigmoid_derivative y <= sigmoid_derivative x.
Proof.
  intros Hx Hxy.
  rewrite <- (sigmoid_derivative_even x), <- (sigmoid_derivative_even y).
  apply derivative_rising; lra.
Qed.

Lemma sig_d_fixed_monotone (x y : R) :
  sigmoid_derivative x <= sigmoid_derivative y ->
  (sig_d_fixed_of x <= sig_d_fixed_of y)%Z.
Proof.
  intros H. unfold sig_d_fixed_of.
  pose proof (sigmoid_derivative_range x). apply int_monotone; lra.
Qed.

(** X12: the derivative channel has one peak: it never decreases up to
    index 512 ([x = 0], where it is 8191) and never increases from there
    on. *)
Theorem X12_derivative_channel_unimodal (i j : nat) :
  (i <= j)%nat ->
  ((j <= 512)%nat ->
   (sig_d_fixed_of (x_of i) <= sig_d_fixed_of (x_of j))%Z) /\
  ((512 <= i)%nat ->
   (sig_d_fixed_of (x_of j) <= sig_d_fixed_of (x_of i))%Z) /\
  sig_d_fixed_of (x_of 512) = 8191%Z.
Proof.
  intros Hij. pose proof (x_of_monotone i j Hij) as Hx.
  split; [| split].
  - intros Hj. apply sig_d_fixed_monotone, derivative_rising; [exact Hx |].
    rewrite <- x_of_512. apply x_of_monotone, Hj.
  - intros Hi. apply sig_d_fixed_monotone, derivative_falling; [| exact Hx].
    rewrite <- x_of_512. apply x_of_monotone, Hi.
  - rewrite x_of_512. unfold sig_d_fixed_of, sigmoid_derivative. cbv zeta.
    rewrite sigmoid_0. apply int_nonneg_unique; [simpl; lra | lia].
Qed.

Lemma X12_derivative_channel_unimodal_witness :
  ((512 <= 512)%nat ->
   (sig_d_fixed_of (x_of 0) <= sig_d_fixed_of (x_of 512))%Z) /\
  ((512 <= 0)%nat ->
   (sig_d_fixed_of (x_of 512) <= sig_d_fixed_of (x_of 0))%Z) /\
  sig_d_fixed_of (x_of 512) = 8191%Z.
Proof. apply (X12_derivative_channel_unimodal 0 512). lia. Defined.

Lemma sig_fixed_mirror (y : R) :
  (32766 <= sig_fixed_of y + sig_fixed_of (- y) <= 32767)%Z.
Proof.
  unfold sig_fixed_of. rewrite sigmoid_complement.
  pose proof (sigmoid_range y) as [H0 H1].
  pose proof (int_nonneg_bounds (sigmoid y * 32767) ltac:(lra)) as [La Ua].
  pose proof (int_nonneg_bounds ((1 - sigmoid y) * 32767) ltac:(lra)) as [Lb Ub].
  split.
  - apply Z.lt_pred_le, lt_IZR. unfold Z.pred. rewrite !plus_IZR. simpl. lra.
  - apply Z.lt_succ_r, lt_IZR. rewrite succ_IZR, plus_IZR. lra.
Qed.

(** X13: truncation breaks the symmetry of the sigmoid channel of the
    table by at most one unit: the channels of the entries at [i] and at
    [1024 - i] add up to 32766 or 32767. *)
Theorem X13_sigmoid_channel_mirror (i : nat) :
  (1 <= i <= 1023)%nat ->
  (32766 <= sig_fixed_of (x_of i) + sig_fixed_of (x_of (1024 - i)) <= 32767)%Z.
Proof.
  intros Hi. rewrite (x_of_mirror i) by lia. apply sig_fixed_mirror.
Qed.

Lemma X13_sigmoid_channel_mirror_witness :
  (32766 <= sig_fixed_of (x_of 1) + sig_fixed_of (x_of (1024 - 1)) <= 32767)%Z.
Proof. apply (X13_sigmoid_channel_mirror 1). lia. Defined.

End Channels.
